(** * GloPM registry: a shallow embedding of the two back ends

    The repository holds two parallel implementations of one package
    registry over MongoDB and GridFS:

    - the Koa server (src/controllers/*.ts, src/middlewares/auth.ts),
      embedded in [Module Koa];
    - the Hono server (backend/src/controllers/*.ts,
      backend/src/middlewares/auth.ts), embedded in [Module Hono].

    Every request handler is an [async] method whose body is one
    [try { ... } catch (error) { 500 }] block around a sequence of awaited
    store calls.  It is embedded as a computation in a state-and-exception
    monad over the database; each awaited store call may throw, which is
    driven by an explicit fault plan, so that partially applied effects
    of a failed handler are visible in the resulting database. *)

From Stdlib Require Import List String Ascii Bool Arith ZArith Lia.
From Stdlib Require Import Strings.Byte.
Import ListNotations.
Local Open Scope string_scope.

(** ** BSON values *)

(** [ObjectId]: twelve bytes, kept as their canonical rendering, the 24
    lowercase hexadecimal digits returned by [toHexString()]. *)
Record ObjectId : Type := mkObjectId { toHexString : string }.

Definition isHexDigit (c : ascii) : bool :=
  let n := nat_of_ascii c in
  (Nat.leb 48 n && Nat.leb n 57) || (Nat.leb 97 n && Nat.leb n 102)
  || (Nat.leb 65 n && Nat.leb n 70).

Definition toLowerChar (c : ascii) : ascii :=
  let n := nat_of_ascii c in
  if Nat.leb 65 n && Nat.leb n 90 then ascii_of_nat (n + 32) else c.

Fixpoint toLowerCase (s : string) : string :=
  match s with
  | EmptyString => EmptyString
  | String c r => String (toLowerChar c) (toLowerCase r)
  end.

Fixpoint allHex (s : string) : bool :=
  match s with
  | EmptyString => true
  | String c r => isHexDigit c && allHex r
  end.

(** [new ObjectId(s)] on a string: the driver accepts exactly a string of 24
    hexadecimal digits (in either case) and throws a BSONError on any other
    string; [None] stands for the throw. *)
Definition newObjectId (s : string) : option ObjectId :=
  if Nat.eqb (String.length s) 24 && allHex s
  then Some (mkObjectId (toLowerCase s)) else None.

Definition ObjectId_eqb (a b : ObjectId) : bool :=
  String.eqb (toHexString a) (toHexString b).

(** The ids that exist at run time are those the constructor can build:
    [o] is one when [new ObjectId(o.toHexString())] gives [o] back. *)
Definition isObjectId (o : ObjectId) : bool :=
  match newObjectId (toHexString o) with
  | Some o' => ObjectId_eqb o' o
  | None => false
  end.

(** The identifiers travel through the handlers either as a JavaScript
    string (a header value) or as an [ObjectId] object; TypeScript's
    [as ObjectId] casts are erased and change nothing at run time. *)
Inductive value : Type :=
  | VString (s : string)
  | VObjectId (o : ObjectId).

(** Equality of a query filter [{ field: v }] against a stored field:
    MongoDB compares type and value, a string never equals an ObjectId. *)
Definition value_eqb (a b : value) : bool :=
  match a, b with
  | VString s, VString t => String.eqb s t
  | VObjectId o, VObjectId p => ObjectId_eqb o p
  | _, _ => false
  end.

(** JavaScript's [a !== b] on these values: strings by content, objects by
    reference.  A document read from the store is a fresh object, so an
    [ObjectId] read from it is never identical to one built elsewhere. *)
Definition strictNotEqual (stored given : value) : bool :=
  match stored, given with
  | VString s, VString t => negb (String.eqb s t)
  | _, _ => true
  end.

(** [x.equals(y)]: a method of [ObjectId] only.  On an [ObjectId] receiver
    the argument may be an [ObjectId] or a 24-digit hexadecimal string; a
    string receiver has no such method and the call raises a TypeError
    ([None]). *)
Definition equals (receiver arg : value) : option bool :=
  match receiver with
  | VString _ => None
  | VObjectId o =>
      match arg with
      | VObjectId p => Some (ObjectId_eqb o p)
      | VString s =>
          match newObjectId s with
          | Some p => Some (ObjectId_eqb o p)
          | None => Some false
          end
      end
  end.

(** JavaScript truthiness of a possibly absent string ([!x] is its
    negation): [undefined], [null] and [''] are falsy. *)
Definition truthy (x : option string) : bool :=
  match x with
  | Some s => negb (String.eqb s EmptyString)
  | None => false
  end.

(** ** Documents of the three collections and of the GridFS bucket

    Fields that only one of the two servers writes are optional. *)

Module User.
Record t : Type := mk
  { _id : ObjectId;
    username : string;
    password : string;          (* the stored password hash *)
    apiKey : string;
    createdAt : option Z;
    lastLogin : option Z }.

Definition set_lastLogin (d : Z) (u : t) : t :=
  mk (_id u) (username u) (password u) (apiKey u) (createdAt u) (Some d).
End User.

Module Package.
Record t : Type := mk
  { _id : ObjectId;
    name : string;
    description : string;
    owner : value;
    createdAt : Z;
    updatedAt : Z;
    downloads : option Z }.
End Package.

Module Version.
Record t : Type := mk
  { _id : ObjectId;
    package : ObjectId;
    version : string;
    description : string;
    sha256 : option string;
    fileSize : nat;
    filePath : string;
    filename : string;
    publishedBy : value;
    publishedAt : Z;
    downloads : option Z }.
End Version.

(** A document of [fs.files], kept together with the bytes that its
    chunks hold: the driver inserts it last, when all chunks of the upload
    are stored, and no code of the repository changes or deletes a chunk. *)
Module GridFile.
Record t : Type := mk
  { _id : ObjectId;
    filename : string;
    metadata : string * string;   (* { packageName, version } *)
    content : list byte }.
End GridFile.

(** A document of [fs.chunks]. *)
Module Chunk.
Record t : Type := mk
  { files_id : ObjectId;
    n : nat;
    data : list byte }.
End Chunk.

Record Db : Type := mkDb
  { users : list User.t;
    packages : list Package.t;
    versions : list Version.t;
    fs : list GridFile.t;         (* fs.files *)
    chunks : list Chunk.t }.      (* fs.chunks *)

Definition emptyDb : Db := mkDb [] [] [] [] [].

(** ** List operations behind the collection methods *)

(** [deleteOne]: the first matching document goes. *)
Fixpoint deleteFirst {A} (f : A -> bool) (l : list A) : list A :=
  match l with
  | [] => []
  | x :: r => if f x then r else x :: deleteFirst f r
  end.

(** [deleteMany]: every matching document goes. *)
Definition deleteAll {A} (f : A -> bool) (l : list A) : list A :=
  filter (fun x => negb (f x)) l.

(** [updateOne]: the first matching document is rewritten. *)
Fixpoint updateFirst {A} (f : A -> bool) (g : A -> A) (l : list A) : list A :=
  match l with
  | [] => []
  | x :: r => if f x then g x :: r else x :: updateFirst f g r
  end.

(** [sort({ publishedAt: -1 })]: descending by publication time, by
    insertion.  MongoDB does not say in which order it returns documents
    of equal time, and nothing below depends on the order that this sort
    gives them. *)
Fixpoint insertDesc (v : Version.t) (l : list Version.t) : list Version.t :=
  match l with
  | [] => [v]
  | x :: r =>
      if (Version.publishedAt x <? Version.publishedAt v)%Z
      then v :: x :: r
      else x :: insertDesc v r
  end.

Fixpoint sortDesc (l : list Version.t) : list Version.t :=
  match l with
  | [] => []
  | v :: r => insertDesc v (sortDesc r)
  end.

(** ** The handler monad: database state, exceptions, store faults *)

Record World : Type := mkWorld
  { db : Db;
    faults : list (option string) }.

Inductive outcome (A : Type) : Type :=
  | Ok (a : A)
  | Throw (message : string).
Arguments Ok {A} a.
Arguments Throw {A} message.

Definition M (A : Type) : Type := World -> outcome A * World.

Definition ret {A} (a : A) : M A := fun w => (Ok a, w).

Definition bind {A B} (m : M A) (k : A -> M B) : M B :=
  fun w =>
    match m w with
    | (Ok a, w') => k a w'
    | (Throw e, w') => (Throw e, w')
    end.

Definition throw {A} (e : string) : M A := fun w => (Throw e, w).

Notation "x <- m ;; k" := (bind m (fun x => k))
  (at level 61, m at next level, right associativity).
Notation "m ;;; k" := (bind m (fun _ => k))
  (at level 61, right associativity).

(** One awaited round trip to MongoDB.  The next entry of the fault plan
    says whether the call rejects, and with which message; an exhausted
    plan means that the store answers. *)
Definition await : M unit :=
  fun w =>
    match faults w with
    | [] => (Ok tt, w)
    | None :: r => (Ok tt, mkWorld (db w) r)
    | Some e :: r => (Throw e, mkWorld (db w) r)
    end.

Definition query {A} (f : Db -> A) : M A :=
  await ;;; fun w => (Ok (f (db w)), w).

Definition update (f : Db -> Db) : M unit :=
  await ;;; fun w => (Ok tt, mkWorld (f (db w)) (faults w)).

(** [try { body } catch (error) { handler(error.message) }] *)
Definition tryCatch {A} (body : M A) (handler : string -> M A) : M A :=
  fun w =>
    match body w with
    | (Ok a, w') => (Ok a, w')
    | (Throw e, w') => handler e w'
    end.

(** ** Collection methods *)

Definition users_findOne (f : User.t -> bool) : M (option User.t) :=
  query (fun d => find f (users d)).

Definition users_insertOne (u : User.t) : M ObjectId :=
  update (fun d =>
    mkDb (users d ++ [u]) (packages d) (versions d) (fs d) (chunks d)) ;;;
  ret (User._id u).

Definition users_updateOne (f : User.t -> bool) (g : User.t -> User.t)
  : M unit :=
  update (fun d =>
    mkDb (updateFirst f g (users d)) (packages d) (versions d) (fs d) (chunks d)).

Definition users_deleteOne (f : User.t -> bool) : M unit :=
  update (fun d =>
    mkDb (deleteFirst f (users d)) (packages d) (versions d) (fs d) (chunks d)).

Definition packages_findOne (f : Package.t -> bool) : M (option Package.t) :=
  query (fun d => find f (packages d)).

Definition packages_insertOne (p : Package.t) : M ObjectId :=
  update (fun d =>
    mkDb (users d) (packages d ++ [p]) (versions d) (fs d) (chunks d)) ;;;
  ret (Package._id p).

Definition packages_deleteOne (f : Package.t -> bool) : M unit :=
  update (fun d =>
    mkDb (users d) (deleteFirst f (packages d)) (versions d) (fs d) (chunks d)).

Definition packages_deleteMany (f : Package.t -> bool) : M unit :=
  update (fun d =>
    mkDb (users d) (deleteAll f (packages d)) (versions d) (fs d) (chunks d)).

Definition versions_findOne (f : Version.t -> bool) : M (option Version.t) :=
  query (fun d => find f (versions d)).

Definition versions_find (f : Version.t -> bool) : M (list Version.t) :=
  query (fun d => filter f (versions d)).

(** [find(f).sort({ publishedAt: -1 }).limit(n).toArray()] *)
Definition versions_find_sort_limit (f : Version.t -> bool) (n : nat)
  : M (list Version.t) :=
  query (fun d => firstn n (sortDesc (filter f (versions d)))).

Definition versions_insertOne (v : Version.t) : M ObjectId :=
  update (fun d =>
    mkDb (users d) (packages d) (versions d ++ [v]) (fs d) (chunks d)) ;;;
  ret (Version._id v).

(** ** GridFS (utils/gridFS.ts) *)

(** The upload stream of the driver cuts what is written to it into
    pieces of [chunkSizeBytes] bytes, the last one possibly shorter; an
    empty buffer has no piece.  [room] is what the piece in hand, held
    in reverse in [current], can still take. *)
Definition chunkSizeBytes : N := 261120.       (* 255 * 1024, the default *)

Fixpoint cut (room : N) (current buffer : list byte) : list (list byte) :=
  match buffer with
  | [] => match current with [] => [] | _ :: _ => [rev current] end
  | b :: r =>
      if (room =? 0)%N
      then rev current :: cut (chunkSizeBytes - 1) [b] r
      else cut (room - 1) (b :: current) r
  end.

(** One [insertOne] into [fs.chunks] per piece, numbered from [n]. *)
Fixpoint insertChunks (fileId : ObjectId) (n : nat)
    (pieces : list (list byte)) : M unit :=
  match pieces with
  | [] => ret tt
  | piece :: r =>
      update (fun d =>
        mkDb (users d) (packages d) (versions d) (fs d)
             (chunks d ++ [Chunk.mk fileId n piece])) ;;;
      insertChunks fileId (S n) r
  end.

(** [saveFileToGridFS(bucket, buffer, { filename, metadata })]: the buffer
    is piped into an upload stream, which stores the chunks and then the
    document of the file; the promise resolves with the id of the stream
    on ['finish'] and rejects on ['error'], with the chunks stored so far
    left in place.  [fileId] is the id the driver gives to the upload
    stream. *)
Definition saveFileToGridFS (fileId : ObjectId) (buffer : list byte)
    (filename : string) (metadata : string * string) : M ObjectId :=
  insertChunks fileId 0 (cut chunkSizeBytes [] buffer) ;;;
  update (fun d =>
    mkDb (users d) (packages d) (versions d)
         (fs d ++ [GridFile.mk fileId filename metadata buffer])
         (chunks d)) ;;;
  ret fileId.
Arguments saveFileToGridFS : simpl never.

(** The chunk documents of an upload, and the store after an upload that
    went through. *)
Fixpoint chunkDocs (fileId : ObjectId) (n : nat) (pieces : list (list byte))
  : list Chunk.t :=
  match pieces with
  | [] => []
  | piece :: r => Chunk.mk fileId n piece :: chunkDocs fileId (S n) r
  end.

Definition chunksOf (fileId : ObjectId) (buffer : list byte)
  : list Chunk.t :=
  chunkDocs fileId 0 (cut chunkSizeBytes [] buffer).

Definition uploaded (fileId : ObjectId) (buffer : list byte)
    (filename : string) (metadata : string * string) (d : Db) : Db :=
  mkDb (users d) (packages d) (versions d)
       (fs d ++ [GridFile.mk fileId filename metadata buffer])
       (chunks d ++ chunksOf fileId buffer).

(** What a download stream opened on [fileId] yields when it is read:
    the bytes of the file with that id, or an error when there is none. *)
Definition streamContents (d : Db) (fileId : ObjectId)
  : option (list byte) :=
  option_map GridFile.content
    (find (fun f => ObjectId_eqb (GridFile._id f) fileId) (fs d)).

(** [for await (const chunk of downloadStream)] followed by
    [Buffer.concat]. *)
Definition readStream (fileId : ObjectId) : M (list byte) :=
  r <- query (fun d => streamContents d fileId) ;;
  match r with
  | Some bytes => ret bytes
  | None => throw ("FileNotFound: file " ++ toHexString fileId ++ " was not found")
  end.

(** ** Responses *)

Inductive Body : Type :=
  | Error (error : string)                       (* { error } *)
  | Message (message : string)                   (* { message } *)
  | Published (message : string) (versionId : ObjectId)
  | Credentials (message : option string) (userId : ObjectId)
      (apiKey : string)
  | PackageList (l : list Package.t)
  | VersionDoc (v : Version.t)
  | VersionList (l : list Version.t)
  | Buffer (bytes : list byte)
  | Stream (fileId : ObjectId).

Record Response : Type := mkResponse
  { status : nat;
    body : Body;
    headers : list (string * string) }.

Definition json (b : Body) (st : nat) : Response := mkResponse st b [].

(** A handler is run against a database and a fault plan.  Its own
    [try]/[catch] has turned every exception of its body into a 500 answer;
    an exception thrown outside of it (in the middleware) reaches the
    framework, which answers 500 as well. *)
Definition run (h : M Response) (plan : list (option string)) (d : Db)
  : Response * Db :=
  match h (mkWorld d plan) with
  | (Ok r, w) => (r, db w)
  | (Throw _, w) => (json (Error "Internal Server Error") 500, db w)
  end.

Definition dquote : string := String (ascii_of_nat 34) EmptyString.

(** [`attachment; filename="${filename}"`] *)
Definition contentDisposition (filename : string) : string :=
  "attachment; filename=" ++ dquote ++ filename ++ dquote.
Arguments contentDisposition : simpl never.

Definition BSONError : string :=
  "input must be a 24 character hex string, 12 byte Uint8Array, or an integer".

(** [new ObjectId(s)] inside a handler. *)
Definition ObjectId_new (s : string) : M ObjectId :=
  match newObjectId s with
  | Some o => ret o
  | None => throw BSONError
  end.

(** [crypto.randomBytes(32).toString('hex')]; [entropy] is what
    [randomBytes] returned. *)
Definition hexDigit (n : N) : ascii :=
  match n with
  | 0%N => "0" | 1%N => "1" | 2%N => "2" | 3%N => "3" | 4%N => "4"
  | 5%N => "5" | 6%N => "6" | 7%N => "7" | 8%N => "8" | 9%N => "9"
  | 10%N => "a" | 11%N => "b" | 12%N => "c" | 13%N => "d" | 14%N => "e"
  | _ => "f"
  end%char.

Fixpoint toHex (bytes : list byte) : string :=
  match bytes with
  | [] => EmptyString
  | b :: r =>
      let n := Byte.to_N b in
      String (hexDigit (N.div n 16)) (String (hexDigit (N.modulo n 16)) (toHex r))
  end.

Definition generateApiKey (entropy : list byte) : string := toHex entropy.

(** ** What the handlers take from Node and from npm packages

    These functions are not code of the repository; the handlers are
    embedded over any implementation of them. *)
Class Platform : Type :=
  { (* crypto.createHash('sha256').update(buffer).digest('hex') *)
    sha256_hex : list byte -> string;
    (* bcrypt.hash(password, rounds), with the salt it drew *)
    bcrypt_hash : string -> nat -> list byte -> string;
    (* bcrypt.compare(password, hash) *)
    bcrypt_compare : string -> string -> bool;
    (* argon2.hash(password), with the salt it drew *)
    argon2_hash : string -> list byte -> string;
    (* argon2.verify(hash, password) *)
    argon2_verify : string -> string -> bool;
    (* path.basename(p) *)
    basename : string -> string;
    (* { $regex: pattern, $options: options } in a filter: the message
       with which MongoDB rejects a pattern that is no regular expression,
       or else the strings that the pattern matches *)
    regex : string -> string -> string + (string -> bool);
    (* res.setHeader(name, value) of node:http, which Koa's ctx.set
       calls: the message of the TypeError thrown for a value that may
       not stand in a header (a character above U+00FF, for one) *)
    res_setHeader : string -> string -> option string;
    (* c.header(name, value) of Hono, likewise *)
    c_header : string -> string -> option string }.

(** A store call that MongoDB answers with an error. *)
Definition rejected {A} (message : string) : M A :=
  query (fun _ => tt) ;;; throw message.

(** [find({ name: { $regex: pattern, $options: options } }).toArray()];
    [pattern] is what the handler put under [$regex]: a string, or
    something else ([None]), which the store refuses. *)
Definition packages_find_regex {P : Platform} (pattern : option string)
    (options : string) : M (list Package.t) :=
  match pattern with
  | None => rejected "$regex has to be a string"
  | Some pattern =>
      match regex pattern options with
      | inl message => rejected message
      | inr matches =>
          query (fun d => filter (fun p => matches (Package.name p))
                            (packages d))
      end
  end.

Record Headers : Type := mkHeaders
  { x_api_key : option string;
    x_user_id : option string }.

(** A handler either answers at once or goes on with a value. *)
Definition answer {A} (r : Response) : M (Response + A) := ret (inl r).
Definition goOn {A} (a : A) : M (Response + A) := ret (inr a).

(** * The Koa server *)

Module Koa.
Section Handlers.
Context {P : Platform}.

(** [ctx.get(name)]: the header, or [''] when the request has none. *)
Definition ctx_get (h : option string) : string :=
  match h with Some s => s | None => EmptyString end.

(** [ctx.status = st; ctx.body = b; return] *)
Definition respond (st : nat) (b : Body) : M Response := ret (json b st).

(** src/middlewares/auth.ts: [authenticate(db)].  [next] is the rest of
    the route, which receives [ctx.state.userId]: the header string. *)
Definition authenticate (h : Headers) (next : string -> M Response)
  : M Response :=
  let apiKey := ctx_get (x_api_key h) in
  let userId := ctx_get (x_user_id h) in
  if String.eqb apiKey EmptyString then respond 401 (Error "缺少 API Key")
  else if String.eqb userId EmptyString then respond 401 (Error "缺少 User ID")
  else
    oid <- ObjectId_new userId ;;
    user <- users_findOne (fun u => ObjectId_eqb (User._id u) oid) ;;
    match user with
    | None => respond 401 (Error "无效的 User")
    | Some u =>
        if negb (String.eqb (User.apiKey u) apiKey)
        then respond 401 (Error "错误的 API Key")
        else next userId
    end.

(** [request.files?.file]: nothing, one uploaded file, or an array. *)
Inductive Upload : Type :=
  | NoFile
  | FileArray
  | OneFile (filepath : string).

Record PublishBody : Type := mkPublishBody
  { packageName : string;
    version : string;
    description : string }.

(** What one [publish] draws from its environment: the clock, the ids
    the driver generates for the documents it inserts, and the uploaded
    files on disk. *)
Record PublishEnv : Type := mkPublishEnv
  { now : Z;
    newPackageId : ObjectId;
    newFileId : ObjectId;
    newVersionId : ObjectId;
    readFile : string -> option (list byte) }.

Definition fs_readFile (e : PublishEnv) (filepath : string)
  : M (list byte) :=
  match readFile e filepath with
  | Some bytes => ret bytes
  | None => throw "ENOENT: no such file or directory"
  end.

(** [PackageController.publish]; [userId] is [ctx.state.userId]. *)
Definition publish (e : PublishEnv) (userId : value) (b : PublishBody)
    (file : Upload) : M Response :=
  tryCatch
    (match file with
     | NoFile | FileArray => respond 400 (Error "文件未上传")
     | OneFile filepath =>
         fileBuffer <- fs_readFile e filepath ;;
         let fileName := basename filepath in
         found <- packages_findOne
                    (fun p => String.eqb (Package.name p) (packageName b)) ;;
         r <- match found with
              | Some pkg =>
                  match equals (Package.owner pkg) userId with
                  | None => throw "pkg.owner.equals is not a function"
                  | Some false => answer (json (Error "无权限发布此包") 403)
                  | Some true => goOn (Package._id pkg)
                  end
              | None =>
                  insertedId <- packages_insertOne
                    (Package.mk (newPackageId e) (packageName b)
                       (description b) userId (now e) (now e) (Some 0%Z)) ;;
                  goOn insertedId
              end ;;
         match r with
         | inl early => ret early
         | inr pkg_id =>
             existingVersion <- versions_findOne
               (fun v => ObjectId_eqb (Version.package v) pkg_id
                         && String.eqb (Version.version v) (version b)) ;;
             match existingVersion with
             | Some _ => respond 400 (Error "版本已存在")
             | None =>
                 let sha256 := sha256_hex fileBuffer in
                 fileId <- saveFileToGridFS (newFileId e) fileBuffer
                             (basename filepath) (packageName b, version b) ;;
                 insertedId <- versions_insertOne
                   (Version.mk (newVersionId e) pkg_id (version b)
                      (description b) (Some sha256) (List.length fileBuffer)
                      (toHexString fileId) fileName userId (now e)
                      (Some 0%Z)) ;;
                 respond 200 (Published "包发布成功" insertedId)
             end
         end
     end)
    (fun message => respond 500 (Error message)).

(** [PackageController.deletePackage] *)
Definition deletePackage (userId : value) (packageName : string)
  : M Response :=
  tryCatch
    (found <- packages_findOne
                (fun p => String.eqb (Package.name p) packageName) ;;
     match found with
     | None => respond 404 (Error "包不存在")
     | Some pkg =>
         if strictNotEqual (Package.owner pkg) userId
         then respond 403 (Error "无权限删除此包")
         else
           packages_deleteOne
             (fun p => ObjectId_eqb (Package._id p) (Package._id pkg)) ;;;
           respond 200 (Message "包删除成功")
     end)
    (fun message => respond 500 (Error message)).

(** [ctx.set(name, value)] *)
Definition ctx_set (name value : string) : M unit :=
  match res_setHeader name value with
  | Some message => throw message
  | None => ret tt
  end.

(** [PackageController.download]: the body is the GridFS download
    stream itself; what the client reads from it is [streamContents].
    The constant ['application/octet-stream'] is a legal header value;
    the file name is whatever the Version document holds. *)
Definition download (packageName version : string) : M Response :=
  tryCatch
    (found <- packages_findOne
                (fun p => String.eqb (Package.name p) packageName) ;;
     match found with
     | None => respond 404 (Error "包不存在")
     | Some pkg =>
         versionInfo <- versions_findOne
           (fun v => ObjectId_eqb (Version.package v) (Package._id pkg)
                     && String.eqb (Version.version v) version) ;;
         match versionInfo with
         | None => respond 404 (Error "版本不存在")
         | Some v =>
             fileId <- ObjectId_new (Version.filePath v) ;;
             ctx_set "Content-Disposition"
               (contentDisposition (Version.filename v)) ;;;
             ret (mkResponse 200 (Stream fileId)
                    [("Content-Type", "application/octet-stream");
                     ("Content-Disposition",
                      contentDisposition (Version.filename v))])
         end
     end)
    (fun message => respond 500 (Error message)).

(** [ctx.request.query.query]: the parameter may be absent, given once,
    or given several times, which makes it an array. *)
Inductive QueryValue : Type :=
  | Absent
  | One (s : string)
  | Many (l : list string).

(** [PackageController.searchPackages]: the value goes under [$regex] as
    it is, whatever the [as { query: string }] says. *)
Definition searchPackages (query : QueryValue) : M Response :=
  tryCatch
    (l <- packages_find_regex
            (match query with One s => Some s | _ => None end) "i" ;;
     respond 200 (PackageList l))
    (fun message => respond 500 (Error message)).

(** [PackageController.getLatestVersion] *)
Definition getLatestVersion (packageName : string) : M Response :=
  tryCatch
    (found <- packages_findOne
                (fun p => String.eqb (Package.name p) packageName) ;;
     match found with
     | None => respond 404 (Error "包不存在")
     | Some pkg =>
         latestVersion <- versions_find_sort_limit
           (fun v => ObjectId_eqb (Version.package v) (Package._id pkg)) 1 ;;
         match latestVersion with
         | [] => respond 200 (Message "暂无版本")
         | v :: _ => respond 200 (VersionDoc v)
         end
     end)
    (fun message => respond 500 (Error message)).
(** What [register] draws from its environment. *)
Record RegisterEnv : Type := mkRegisterEnv
  { registeredAt : Z;
    newUserId : ObjectId;
    salt : list byte;
    entropy : list byte }.        (* crypto.randomBytes(32) *)

(** [AuthController.register] *)
Definition register (e : RegisterEnv) (username password : string)
  : M Response :=
  tryCatch
    (existingUser <- users_findOne
                       (fun u => String.eqb (User.username u) username) ;;
     match existingUser with
     | Some _ => respond 400 (Error "用户名已存在")
     | None =>
         let passwordHash := bcrypt_hash password 10 (salt e) in
         let apiKey := generateApiKey (entropy e) in
         insertedId <- users_insertOne
           (User.mk (newUserId e) username passwordHash apiKey
              (Some (registeredAt e)) (Some (registeredAt e))) ;;
         respond 201 (Credentials None insertedId apiKey)
     end)
    (fun message => respond 500 (Error message)).

(** [AuthController.login]; [at] is the clock. *)
Definition login (at_ : Z) (username password : string) : M Response :=
  tryCatch
    (found <- users_findOne
                (fun u => String.eqb (User.username u) username) ;;
     match found with
     | None => respond 401 (Error "用户不存在")
     | Some user =>
         let validPassword := bcrypt_compare password (User.password user) in
         if negb validPassword then respond 401 (Error "密码错误")
         else
           users_updateOne
             (fun u => ObjectId_eqb (User._id u) (User._id user))
             (User.set_lastLogin at_) ;;;
           respond 200
             (Credentials (Some "登录成功") (User._id user) (User.apiKey user))
     end)
    (fun message => respond 500 (Error message)).

(** [AuthController.removeAccount]; [userId] is [ctx.state.userId]. *)
Definition removeAccount (userId : option string) : M Response :=
  tryCatch
    (match userId with
     | None | Some EmptyString => respond 401 (Error "未认证")
     | Some userId =>
         uid <- ObjectId_new userId ;;
         users_deleteOne (fun u => ObjectId_eqb (User._id u) uid) ;;;
         owner <- ObjectId_new userId ;;
         packages_deleteMany
           (fun p => value_eqb (Package.owner p) (VObjectId owner)) ;;;
         respond 200 (Message "账号已删除")
     end)
    (fun message => respond 500 (Error message)).

(** ** Routes (src/routes/packageRoutes.ts, src/routes/authRoutes.ts)

    [ctx.state.userId] is the string that [authenticate] stored; the
    [as ObjectId] of the controllers does not convert it. *)

(** What [koaBody({ multipart: true })] (index.ts) has made of the body
    of a POST before any route runs: the fields of a JSON or urlencoded
    body, with [ctx.request.files] undefined, or the fields and the files
    of a [multipart/form-data] body, which it has read to its end. *)
Inductive ParsedBody : Type :=
  | Fields (b : PublishBody)
  | Multipart (b : PublishBody) (file : Upload).

Definition request_body (r : ParsedBody) : PublishBody :=
  match r with Fields b => b | Multipart b _ => b end.

Definition request_files (r : ParsedBody) : Upload :=
  match r with Fields _ => NoFile | Multipart _ file => file end.

(** [upload.single('file')] of @koa/multer, the second middleware of
    the publish route.  It lets a request pass that is not multipart, and
    parses the body of one that is: but [koaBody] has consumed that body
    already, the parser meets the end of the stream and the middleware
    throws, outside of any [try] of the repository. *)
Definition upload_single (r : ParsedBody) : M unit :=
  match r with
  | Fields _ => ret tt
  | Multipart _ _ => throw "Unexpected end of form"
  end.

Definition route_publish (e : PublishEnv) (h : Headers) (r : ParsedBody)
  : M Response :=
  authenticate h (fun userId =>
    upload_single r ;;;
    publish e (VString userId) (request_body r) (request_files r)).

Definition route_deletePackage (h : Headers) (packageName : string)
  : M Response :=
  authenticate h (fun userId => deletePackage (VString userId) packageName).

Definition route_removeAccount (h : Headers) : M Response :=
  authenticate h (fun userId => removeAccount (Some userId)).
(** ** The server as a transition system

    One transition is one request served to the end, under some fault
    plan.  The ids that the driver generates are well-formed ObjectIds. *)
Inductive Request : Type :=
  | Register (e : RegisterEnv) (username password : string)
  | Login (at_ : Z) (username password : string)
  | RemoveAccount (h : Headers)
  | Publish (e : PublishEnv) (h : Headers) (r : ParsedBody)
  | DeletePackage (h : Headers) (packageName : string)
  | Download (packageName version : string)
  | SearchPackages (query : QueryValue)
  | GetLatestVersion (packageName : string).

Definition handle (r : Request) : M Response :=
  match r with
  | Register e username password => register e username password
  | Login at_ username password => login at_ username password
  | RemoveAccount h => route_removeAccount h
  | Publish e h r => route_publish e h r
  | DeletePackage h packageName => route_deletePackage h packageName
  | Download packageName version => download packageName version
  | SearchPackages query => searchPackages query
  | GetLatestVersion packageName => getLatestVersion packageName
  end.

Definition generatedIdsOk (r : Request) : bool :=
  match r with
  | Register e _ _ => isObjectId (newUserId e)
  | Publish e _ _ =>
      isObjectId (newPackageId e) && isObjectId (newFileId e)
      && isObjectId (newVersionId e)
  | _ => true
  end.

Definition step (d d' : Db) : Prop :=
  exists r plan, generatedIdsOk r = true /\ d' = snd (run (handle r) plan d).

Inductive reachable : Db -> Prop :=
  | reachable_init : reachable emptyDb
  | reachable_step d d' : reachable d -> step d d' -> reachable d'.
End Handlers.
End Koa.

(** * The Hono server *)

Module Hono.
Section Handlers.
Context {P : Platform}.

(** [return c.json(b, st)] *)
Definition respond (st : nat) (b : Body) : M Response := ret (json b st).

(** backend/src/middlewares/auth.ts: [authenticate(db)].  It stores the
    header string in [c.env.userId], which [next] receives. *)
Definition authenticate (h : Headers) (next : string -> M Response)
  : M Response :=
  match x_api_key h with
  | None | Some EmptyString => respond 401 (Error "缺少 API Key")
  | Some apiKey =>
      match x_user_id h with
      | None | Some EmptyString => respond 401 (Error "缺少 User ID")
      | Some userId =>
          oid <- ObjectId_new userId ;;
          user <- users_findOne (fun u => ObjectId_eqb (User._id u) oid) ;;
          match user with
          | None => respond 401 (Error "无效的 User")
          | Some u =>
              if negb (String.eqb (User.apiKey u) apiKey)
              then respond 401 (Error "错误的 API Key")
              else next userId
          end
      end
  end.

(** A value of [formData.get(name)], when the form has the field. *)
Inductive FormDataEntryValue : Type :=
  | Text (s : string)
  | File (name : string) (bytes : list byte).

(** The parsed multipart form; the three text fields are strings. *)
Record FormData : Type := mkFormData
  { packageName : option string;
    version : option string;
    description : option string;
    file : option FormDataEntryValue }.

(** The body of a request, as [c.req.formData()] finds it: a form
    ([multipart/form-data] or urlencoded), or something that is no form,
    with the message of the TypeError that the parser then throws. *)
Inductive RequestBody : Type :=
  | NotAForm (message : string)
  | Form (f : FormData).

(** [await c.req.formData()] *)
Definition req_formData (body : RequestBody) : M FormData :=
  match body with
  | NotAForm message => throw message
  | Form f => ret f
  end.

Record PublishEnv : Type := mkPublishEnv
  { now : Z;
    newPackageId : ObjectId;
    newFileId : ObjectId;
    newVersionId : ObjectId }.

(** [PackageController.publish]; [userIdHeader] is the [x-user-id]
    header of the request and [body] the body of the request. *)
Definition publish (e : PublishEnv) (userIdHeader : option string)
    (body : RequestBody) : M Response :=
  tryCatch
    (match userIdHeader with
     | None | Some EmptyString => respond 401 (Error "未认证")
     | Some userIdHeader =>
     userId <- ObjectId_new userIdHeader ;;
     formData <- req_formData body ;;
     match packageName formData, version formData, description formData with
     | Some packageName, Some version, Some description =>
       if String.eqb packageName EmptyString || String.eqb version EmptyString
          || String.eqb description EmptyString
       then respond 400 (Error "缺少必要字段")
       else
       match file formData with
       | None | Some (Text _) => respond 400 (Error "文件未上传或格式错误")
       | Some (File fileName fileBuffer) =>
         found <- packages_findOne
                    (fun p => String.eqb (Package.name p) packageName) ;;
         r <- match found with
              | Some pkg =>
                  match equals (Package.owner pkg) (VObjectId userId) with
                  | None => throw "pkg.owner.equals is not a function"
                  | Some false => answer (json (Error "无权限发布此包") 403)
                  | Some true => goOn (Package._id pkg)
                  end
              | None =>
                  insertedId <- packages_insertOne
                    (Package.mk (newPackageId e) packageName description
                       (VObjectId userId) (now e) (now e) None) ;;
                  goOn insertedId
              end ;;
         match r with
         | inl early => ret early
         | inr pkg_id =>
             existingVersion <- versions_findOne
               (fun v => ObjectId_eqb (Version.package v) pkg_id
                         && String.eqb (Version.version v) version) ;;
             match existingVersion with
             | Some _ => respond 400 (Error "版本已存在")
             | None =>
                 fileId <- saveFileToGridFS (newFileId e) fileBuffer
                             fileName (packageName, version) ;;
                 insertedId <- versions_insertOne
                   (Version.mk (newVersionId e) pkg_id version description
                      None (List.length fileBuffer) (toHexString fileId)
                      fileName (VObjectId userId) (now e) None) ;;
                 respond 200 (Published "包发布成功" insertedId)
             end
         end
       end
     | _, _, _ => respond 400 (Error "缺少必要字段")
     end
     end)
    (fun message => respond 500 (Error message)).

(** [PackageController.deletePackage] *)
Definition deletePackage (userIdHeader : option string)
    (packageName : string) : M Response :=
  tryCatch
    (match userIdHeader with
     | None | Some EmptyString => respond 401 (Error "未认证")
     | Some userIdHeader =>
         userId <- ObjectId_new userIdHeader ;;
         found <- packages_findOne
                    (fun p => String.eqb (Package.name p) packageName) ;;
         match found with
         | None => respond 404 (Error "包不存在")
         | Some pkg =>
             match equals (Package.owner pkg) (VObjectId userId) with
             | None => throw "pkg.owner.equals is not a function"
             | Some false => respond 403 (Error "无权限删除此包")
             | Some true =>
                 packages_deleteOne
                   (fun p => ObjectId_eqb (Package._id p) (Package._id pkg)) ;;;
                 respond 200 (Message "包删除成功")
             end
         end
     end)
    (fun message => respond 500 (Error message)).

(** [c.header(name, value)] *)
Definition header (name value : string) : M unit :=
  match c_header name value with
  | Some message => throw message
  | None => ret tt
  end.

(** [PackageController.download]: the stream is read into one buffer,
    which is the body.  The constant ['application/octet-stream'] is a
    legal header value; the file name is whatever the Version document
    holds. *)
Definition download (packageName version : string) : M Response :=
  tryCatch
    (found <- packages_findOne
                (fun p => String.eqb (Package.name p) packageName) ;;
     match found with
     | None => respond 404 (Error "包不存在")
     | Some pkg =>
         versionInfo <- versions_findOne
           (fun v => ObjectId_eqb (Version.package v) (Package._id pkg)
                     && String.eqb (Version.version v) version) ;;
         match versionInfo with
         | None => respond 404 (Error "版本不存在")
         | Some v =>
             fileId <- ObjectId_new (Version.filePath v) ;;
             fileBuffer <- readStream fileId ;;
             header "Content-Disposition"
               (contentDisposition (Version.filename v)) ;;;
             ret (mkResponse 200 (Buffer fileBuffer)
                    [("Content-Type", "application/octet-stream");
                     ("Content-Disposition",
                      contentDisposition (Version.filename v))])
         end
     end)
    (fun message => respond 500 (Error message)).

(** [PackageController.searchPackages]; [query] is [c.req.query('query')],
    and [|| ''] makes the empty pattern of an absent or empty one. *)
Definition searchPackages (query : option string) : M Response :=
  tryCatch
    (let query := match query with Some q => q | None => EmptyString end in
     l <- packages_find_regex (Some query) "i" ;;
     respond 200 (PackageList l))
    (fun message => respond 500 (Error message)).

(** [PackageController.getLatestVersion] *)
Definition getLatestVersion (packageName : string) : M Response :=
  tryCatch
    (found <- packages_findOne
                (fun p => String.eqb (Package.name p) packageName) ;;
     match found with
     | None => respond 404 (Error "包不存在")
     | Some pkg =>
         latestVersion <- versions_find_sort_limit
           (fun v => ObjectId_eqb (Version.package v) (Package._id pkg)) 1 ;;
         match latestVersion with
         | [] => respond 200 (Message "暂无版本")
         | v :: _ => respond 200 (VersionDoc v)
         end
     end)
    (fun message => respond 500 (Error message)).

(** [PackageController.getPackageVersions] *)
Definition getPackageVersions (packageName : string) : M Response :=
  tryCatch
    (found <- packages_findOne
                (fun p => String.eqb (Package.name p) packageName) ;;
     match found with
     | None => respond 404 (Error "包不存在")
     | Some pkg =>
         l <- versions_find
                (fun v => ObjectId_eqb (Version.package v) (Package._id pkg)) ;;
         respond 200 (VersionList l)
     end)
    (fun message => respond 500 (Error message)).
Record RegisterEnv : Type := mkRegisterEnv
  { newUserId : ObjectId;
    salt : list byte;
    entropy : list byte }.        (* crypto.randomBytes(32) *)

(** [AuthController.register]; the JSON body may lack either field. *)
Definition register (e : RegisterEnv) (username password : option string)
  : M Response :=
  tryCatch
    (match username, password with
     | Some username, Some password =>
         if String.eqb username EmptyString || String.eqb password EmptyString
         then respond 400 (Error "缺少用户名或密码")
         else
           let hashedPassword := argon2_hash password (salt e) in
           let apiKey := generateApiKey (entropy e) in
           insertedId <- users_insertOne
             (User.mk (newUserId e) username hashedPassword apiKey
                None None) ;;
           respond 201 (Credentials None insertedId apiKey)
     | _, _ => respond 400 (Error "缺少用户名或密码")
     end)
    (fun message => respond 500 (Error message)).

(** [AuthController.login] *)
Definition login (username password : option string) : M Response :=
  tryCatch
    (match username, password with
     | Some username, Some password =>
         if String.eqb username EmptyString || String.eqb password EmptyString
         then respond 400 (Error "缺少用户名或密码")
         else
           found <- users_findOne
                      (fun u => String.eqb (User.username u) username) ;;
           match found with
           | None => respond 404 (Error "用户不存在")
           | Some user =>
               if negb (argon2_verify (User.password user) password)
               then respond 401 (Error "密码错误")
               else respond 200
                      (Credentials None (User._id user) (User.apiKey user))
           end
     | _, _ => respond 400 (Error "缺少用户名或密码")
     end)
    (fun message => respond 500 (Error message)).

(** [AuthController.removeAccount]; [userId] is [c.env.userId]. *)
Definition removeAccount (userId : option string) : M Response :=
  tryCatch
    (match userId with
     | None | Some EmptyString => respond 401 (Error "未认证")
     | Some userId =>
         uid <- ObjectId_new userId ;;
         users_deleteOne (fun u => ObjectId_eqb (User._id u) uid) ;;;
         respond 200 (Message "用户删除成功")
     end)
    (fun message => respond 500 (Error message)).

(** ** Routes (backend/src/routes/*.ts)

    The package controller reads the [x-user-id] header again; the
    auth controller reads [c.env.userId]. *)
Definition route_publish (e : PublishEnv) (h : Headers)
    (body : RequestBody) : M Response :=
  authenticate h (fun _ => publish e (x_user_id h) body).

Definition route_deletePackage (h : Headers) (packageName : string)
  : M Response :=
  authenticate h (fun _ => deletePackage (x_user_id h) packageName).

Definition route_removeAccount (h : Headers) : M Response :=
  authenticate h (fun userId => removeAccount (Some userId)).
(** ** The server as a transition system *)
Inductive Request : Type :=
  | Register (e : RegisterEnv) (username password : option string)
  | Login (username password : option string)
  | RemoveAccount (h : Headers)
  | Publish (e : PublishEnv) (h : Headers) (body : RequestBody)
  | DeletePackage (h : Headers) (packageName : string)
  | Download (packageName version : string)
  | SearchPackages (query : option string)
  | GetLatestVersion (packageName : string)
  | GetPackageVersions (packageName : string).

Definition handle (r : Request) : M Response :=
  match r with
  | Register e username password => register e username password
  | Login username password => login username password
  | RemoveAccount h => route_removeAccount h
  | Publish e h body => route_publish e h body
  | DeletePackage h packageName => route_deletePackage h packageName
  | Download packageName version => download packageName version
  | SearchPackages query => searchPackages query
  | GetLatestVersion packageName => getLatestVersion packageName
  | GetPackageVersions packageName => getPackageVersions packageName
  end.

Definition generatedIdsOk (r : Request) : bool :=
  match r with
  | Register e _ _ => isObjectId (newUserId e)
  | Publish e _ _ =>
      isObjectId (newPackageId e) && isObjectId (newFileId e)
      && isObjectId (newVersionId e)
  | _ => true
  end.

Definition step (d d' : Db) : Prop :=
  exists r plan, generatedIdsOk r = true /\ d' = snd (run (handle r) plan d).

Inductive reachable : Db -> Prop :=
  | reachable_init : reachable emptyDb
  | reachable_step d d' : reachable d -> step d d' -> reachable d'.
End Handlers.
End Hono.

(** * Properties of a database *)

(** Every Version document names a blob that can be read: its [filePath]
    is accepted by [new ObjectId] and the bucket holds a file of that id. *)
Definition blobResolves (d : Db) (v : Version.t) : bool :=
  match newObjectId (Version.filePath v) with
  | Some o =>
      match streamContents d o with Some _ => true | None => false end
  | None => false
  end.

Definition blobRefsOk (d : Db) : bool := forallb (blobResolves d) (versions d).

(** The Versions of a package, as [getLatestVersion] selects them. *)
Definition versionsOf (d : Db) (pkg : Package.t) : list Version.t :=
  filter (fun v => ObjectId_eqb (Version.package v) (Package._id pkg))
    (versions d).

Definition byName (n : string) (p : Package.t) : bool :=
  String.eqb (Package.name p) n.

Definition byVersion (pkg_id : ObjectId) (ver : string) (v : Version.t)
  : bool :=
  ObjectId_eqb (Version.package v) pkg_id && String.eqb (Version.version v) ver.

(** A request body that is a form with the three text fields and a
    file: it passes the field checks of the Hono [publish] when none of the
    texts is empty. *)
Definition filledForm (name ver descr fname : string) (bytes : list byte)
  : Hono.RequestBody :=
  Hono.Form
    (Hono.mkFormData (Some name) (Some ver) (Some descr)
       (Some (Hono.File fname bytes))).

(** What the field checks of the Hono [publish] want: the three texts,
    none of them empty, and a file in the [file] field. *)
Definition formIsComplete (f : Hono.FormData) : bool :=
  truthy (Hono.packageName f) && truthy (Hono.version f)
  && truthy (Hono.description f)
  && match Hono.file f with Some (Hono.File _ _) => true | _ => false end.

(** A request body in which a field is missing: a form that is not
    complete, or no form at all, which has no field. *)
Definition lacksField (body : Hono.RequestBody) : bool :=
  match body with
  | Hono.NotAForm _ => true
  | Hono.Form f => negb (formIsComplete f)
  end.


(** The headers that both servers put on a download. *)
Definition downloadHeaders (v : Version.t) : list (string * string) :=
  [("Content-Type", "application/octet-stream");
   ("Content-Disposition", contentDisposition (Version.filename v))].

(** The filter [{ owner: new ObjectId(userId) }] of [removeAccount]. *)
Definition ownedBy (uid : ObjectId) (p : Package.t) : bool :=
  value_eqb (Package.owner p) (VObjectId uid).

Definition byUserId (uid : ObjectId) (u : User.t) : bool :=
  ObjectId_eqb (User._id u) uid.

Definition byUsername (n : string) (u : User.t) : bool :=
  String.eqb (User.username u) n.

(** The Koa [publish] stores as [owner] what it finds in
    [ctx.state.userId]: the header string, where [authenticate] put it. *)
Definition ownerIsString (p : Package.t) : bool :=
  match Package.owner p with VString _ => true | VObjectId _ => false end.

(** A store without packages, Versions, files and chunks. *)
Definition registryIsEmpty (d : Db) : Prop :=
  packages d = [] /\ versions d = [] /\ fs d = [] /\ chunks d = [].

(** Hoare triples over the handler monad, with a postcondition for a
    normal result and one for a thrown exception. *)
Definition hoare {A} (Pre : Db -> Prop) (m : M A)
    (Post : A -> Db -> Prop) (Exn : Db -> Prop) : Prop :=
  forall w, Pre (db w) ->
    match m w with
    | (Ok a, w') => Post a (db w')
    | (Throw _, w') => Exn (db w')
    end.

(** [m] keeps [I], whether it returns or throws. *)
Definition keeps {A} (I : Db -> Prop) (m : M A) : Prop :=
  hoare I m (fun _ => I) I.

(** ** A platform and a scenario for concrete runs *)

(** The strings of this file hold UTF-8; a character above U+00FF is
    then a sequence that starts with a byte of 0xC4 or more. *)
Fixpoint isByteString (s : string) : bool :=
  match s with
  | EmptyString => true
  | String c r => Nat.ltb (nat_of_ascii c) 196 && isByteString r
  end.

Definition samplePlatform : Platform :=
  {| sha256_hex := fun bytes => "sha256:" ++ toHex bytes;
     bcrypt_hash := fun password _ _ => "bcrypt:" ++ password;
     bcrypt_compare := fun password h => String.eqb h ("bcrypt:" ++ password);
     argon2_hash := fun password _ => "argon2:" ++ password;
     argon2_verify := fun h password => String.eqb h ("argon2:" ++ password);
     basename := fun p => p;
     regex := fun pattern _ =>
       match pattern with
       | EmptyString => inr (fun _ => true)
       | "(" => inl "Regular expression is invalid: missing closing parenthesis"
       | _ => inr (fun s => String.eqb (toLowerCase pattern) (toLowerCase s))
       end;
     res_setHeader := fun name value =>
       if isByteString value then None
       else Some ("Invalid character in header content [" ++ name ++ "]");
     c_header := fun _ value =>
       if isByteString value then None
       else Some "Cannot convert argument to a ByteString" |}.

Definition oid (lastDigit : string) : ObjectId :=
  mkObjectId ("00000000000000000000000" ++ lastDigit).

Definition payload : list byte :=
  [x01; x02; x03; x04; x05; x06; x07; x08; x09; x0a].

Module Scenario.
(** alice and bob register; alice publishes leftpad 1.0.0. *)
Definition aliceId : string := "000000000000000000000001".
Definition bobId : string := "000000000000000000000002".
Definition alice : Headers := mkHeaders (Some "aa") (Some aliceId).
Definition bob : Headers := mkHeaders (Some "bb") (Some bobId).

Module K.
Definition exec (r : Koa.Request) (d : Db) : Response * Db :=
  run (Koa.handle (P := samplePlatform) r) [] d.
Definition disk (path : string) : option (list byte) :=
  if String.eqb path "/tmp/upload_1" then Some payload else None.
Definition registerAlice : Koa.Request :=
  Koa.Register (Koa.mkRegisterEnv 100 (oid "1") [] [xaa]) "alice" "pw123".
Definition registerBob : Koa.Request :=
  Koa.Register (Koa.mkRegisterEnv 101 (oid "2") [] [xbb]) "bob" "pw456".
(** The publish request of a client that uploads the file. *)
Definition publishAs (h : Headers) (ver : string) (t : Z) (a b c : string)
  : Koa.Request :=
  Koa.Publish (Koa.mkPublishEnv t (oid a) (oid b) (oid c) disk) h
    (Koa.Multipart (Koa.mkPublishBody "leftpad" ver "pads on the left")
       (Koa.OneFile "/tmp/upload_1")).
(** The controller itself, called with [userId] in [ctx.state.userId]
    and the uploaded file in [ctx.request.files]. *)
Definition publishCall (userId ver : string) (t : Z) (a b c : string)
  : M Response :=
  Koa.publish (P := samplePlatform)
    (Koa.mkPublishEnv t (oid a) (oid b) (oid c) disk) (VString userId)
    (Koa.mkPublishBody "leftpad" ver "pads on the left")
    (Koa.OneFile "/tmp/upload_1").
Definition registered : Db :=
  snd (exec registerBob (snd (exec registerAlice emptyDb))).
(** The store as the controller leaves it.  The publish route does
    not get as far as the controller with an upload, so that this store is
    one that the Koa server is given, not one that it makes. *)
Definition published : Db :=
  snd (run (publishCall aliceId "1.0.0" 200 "3" "4" "5") [] registered).
End K.

Module H.
Definition exec (r : Hono.Request) (d : Db) : Response * Db :=
  run (Hono.handle (P := samplePlatform) r) [] d.
Definition registerAlice : Hono.Request :=
  Hono.Register (Hono.mkRegisterEnv (oid "1") [] [xaa])
    (Some "alice") (Some "pw123").
Definition registerBob : Hono.Request :=
  Hono.Register (Hono.mkRegisterEnv (oid "2") [] [xbb])
    (Some "bob") (Some "pw456").
Definition publishAs (h : Headers) (ver : string) (t : Z) (a b c : string)
  : Hono.Request :=
  Hono.Publish (Hono.mkPublishEnv t (oid a) (oid b) (oid c)) h
    (filledForm "leftpad" ver "pads on the left" "leftpad.tgz" payload).
Definition registered : Db :=
  snd (exec registerBob (snd (exec registerAlice emptyDb))).
Definition published : Db :=
  snd (exec (publishAs alice "1.0.0" 200 "3" "4" "5") registered).
End H.
End Scenario.

(** * The rest of the code: GridFS reader, credentials, connection *)


(** The requests that [authenticate] lets through, read off its four
    checks: both headers are present and not empty, [x-user-id] is accepted
    by [new ObjectId], the first user of that id exists and its [apiKey] is
    the [x-api-key] header. *)
Definition credentialsOk (d : Db) (h : Headers) : bool :=
  match x_api_key h, x_user_id h with
  | Some apiKey, Some userId =>
      negb (String.eqb apiKey EmptyString)
      && negb (String.eqb userId EmptyString)
      && match newObjectId userId with
         | Some o =>
             match find (byUserId o) (users d) with
             | Some u => String.eqb (User.apiKey u) apiKey
             | None => false
             end
         | None => false
         end
  | _, _ => false
  end.

(** The value of a lowercase hexadecimal digit, used to read the output
    of [toHex] back. *)
Definition hexValue (c : ascii) : N :=
  let n := N_of_ascii c in
  if (n <? 58)%N then (n - 48)%N else (n - 87)%N.

Fixpoint fromHex (s : string) : list byte :=
  match s with
  | String hi (String lo r) =>
      match Byte.of_N (hexValue hi * 16 + hexValue lo) with
      | Some b => b :: fromHex r
      | None => []
      end
  | _ => []
  end.

(** utils/mongoDB.ts: the module keeps one client and one database in two
    variables. *)
Module MongoDB.

(** A client is known by the handle of its connection; [client.db(name)]
    is the pair of the client and the name. *)
Record Database : Type := mkDatabase
  { connection : nat;
    dbName : option string }.

Record State : Type := mkState
  { client : option nat;
    database : option Database;
    console : list string }.

Definition initial : State := mkState None None [].

(** config.ts *)
Record Config : Type := mkConfig
  { MONGO_CONNECTION_STRING : option string;
    DB_NAME : option string }.

(** How an [async] function of the module ends: its promise resolves,
    rejects, or is still pending when the observation stops. *)
Inductive Promise (A : Type) : Type :=
  | Resolved (a : A)
  | Rejected (e : string)
  | Pending.
Arguments Resolved {A} a.
Arguments Rejected {A} e.
Arguments Pending {A}.

(** [while (true) { await sleep(1000); console.log(...) }], observed for
    [seconds] seconds. *)
Fixpoint waitForConfiguration (seconds : nat) (out : list string)
  : list string :=
  match seconds with
  | O => out
  | S n =>
      waitForConfiguration n (out ++ ["MONGO_CONNECTION_STRING 未配置"])%list
  end.

(** What a call of [connectToMongoDB] meets outside of the module:
    [dial] is what [MongoClient.connect] does with the connection string, a
    new connection or an error; [refused] is the message with which
    [client.db(name)] throws when the driver does not take the name (one
    that contains a dot, for one); [seconds] bounds the observation of the
    loop that waits for a configuration. *)
Record Driver : Type := mkDriver
  { dial : string -> nat + string;
    refused : option string -> option string;
    seconds : nat }.

(** [connectToMongoDB()].  The two assignments of the [try] block are
    two steps: [client] is set when the dial has succeeded, [database] when
    [client.db] has returned; the [catch] logs and throws again, and resets
    nothing. *)
Definition connectToMongoDB (cfg : Config) (drv : Driver) (s : State)
  : Promise Database * State :=
  match database s with
  | Some d => (Resolved d, s)
  | None =>
      if truthy (MONGO_CONNECTION_STRING cfg)
      then
        match dial drv (match MONGO_CONNECTION_STRING cfg with
                        | Some uri => uri
                        | None => EmptyString
                        end) with
        | inl c =>
            match refused drv (DB_NAME cfg) with
            | None =>
                let d := mkDatabase c (DB_NAME cfg) in
                (Resolved d,
                 mkState (Some c) (Some d)
                   (console s ++ ["MongoDB 连接成功"])%list)
            | Some e =>
                (Rejected e,
                 mkState (Some c) (database s)
                   (console s ++ [String.append "MongoDB 连接失败: " e])%list)
            end
        | inr e =>
            (Rejected e,
             mkState (client s) (database s)
               (console s ++ [String.append "MongoDB 连接失败: " e])%list)
        end
      else
        (Pending,
         mkState (client s) (database s)
           (waitForConfiguration (seconds drv) (console s)))
  end.

(** [getDatabase()] *)
Definition getDatabase (s : State) : option Database := database s.

(** [closeMongoDB()]; [closing] is the error of [client.close()], if it
    rejects. *)
Definition closeMongoDB (closing : option string) (s : State)
  : Promise unit * State :=
  match client s with
  | Some _ =>
      match closing with
      | Some e => (Rejected e, s)
      | None =>
          (Resolved tt,
           mkState None None (console s ++ ["MongoDB 连接已关闭"])%list)
      end
  | None => (Resolved tt, s)
  end.

(** The calls that the rest of the program makes on the module. *)
Inductive Call : Type :=
  | Connect (cfg : Config) (drv : Driver)
  | Close (closing : option string).

Definition perform (c : Call) (s : State) : State :=
  match c with
  | Connect cfg drv => snd (connectToMongoDB cfg drv s)
  | Close closing => snd (closeMongoDB closing s)
  end.

Definition performAll (calls : list Call) (s : State) : State :=
  fold_left (fun st c => perform c st) calls s.


(** The connection that a call of [connectToMongoDB] opens, if it gets
    as far as the dial and the dial succeeds. *)
Definition dialled (cfg : Config) (drv : Driver) (s : State) : option nat :=
  match database s with
  | Some _ => None
  | None =>
      if truthy (MONGO_CONNECTION_STRING cfg)
      then
        match dial drv (match MONGO_CONNECTION_STRING cfg with
                        | Some uri => uri
                        | None => EmptyString
                        end) with
        | inl c => Some c
        | inr _ => None
        end
      else None
  end.

(** The connections that a sequence of calls has opened and not closed,
    in the order of opening: a successful dial opens one, a successful
    [close] closes the one that [client] holds. *)
Fixpoint openConnections (calls : list Call) (s : State) (opened : list nat)
  : list nat :=
  match calls with
  | [] => opened
  | c :: r =>
      let opened' :=
        match c with
        | Connect cfg drv =>
            match dialled cfg drv s with
            | Some k => (opened ++ [k])%list
            | None => opened
            end
        | Close closing =>
            match client s, closeMongoDB closing s with
            | Some k, (Resolved _, _) =>
                filter (fun x => negb (Nat.eqb x k)) opened
            | _, _ => opened
            end
        end in
      openConnections r (perform c s) opened'
  end.
End MongoDB.

(** * Basic facts *)

Lemma ObjectId_eqb_eq (a b : ObjectId) : ObjectId_eqb a b = true <-> a = b.
Proof.
  destruct a as [x], b as [y]; unfold ObjectId_eqb; simpl.
  rewrite String.eqb_eq. split; congruence.
Qed.

Lemma ObjectId_eqb_refl (a : ObjectId) : ObjectId_eqb a a = true.
Proof. apply ObjectId_eqb_eq; reflexivity. Qed.

Lemma ObjectId_eqb_neq (a b : ObjectId) : ObjectId_eqb a b = false <-> a <> b.
Proof.
  rewrite <- ObjectId_eqb_eq. destruct (ObjectId_eqb a b); split; congruence.
Qed.

Lemma isObjectId_new (o : ObjectId) :
  isObjectId o = true -> newObjectId (toHexString o) = Some o.
Proof.
  unfold isObjectId. destruct (newObjectId (toHexString o)) as [o'|]; [|discriminate].
  intros H. apply ObjectId_eqb_eq in H. congruence.
Qed.

(** Unfolds the monad on a known world, so that a handler runs as far as
    the lookups in the database let it. *)
Ltac run_handler :=
  unfold run, tryCatch, bind, query, update, await, ret, throw, answer, goOn,
    ObjectId_new; cbn.

Ltac unfold_store :=
  unfold users_findOne, users_insertOne, users_updateOne, users_deleteOne,
    packages_findOne, packages_find_regex, rejected, packages_insertOne,
    packages_deleteOne, packages_deleteMany, versions_findOne, versions_find,
    versions_find_sort_limit, versions_insertOne,
    readStream, Koa.respond, Hono.respond, Koa.fs_readFile, Koa.ctx_set,
    Koa.upload_single, Hono.header, Hono.req_formData in *.

(** ** Rules of the Hoare logic *)

Section HoareRules.
Context {A B : Type}.
Implicit Types (Pre Exn : Db -> Prop).

Lemma hoare_ret (a : A) Pre (Post : A -> Db -> Prop) Exn :
  (forall d, Pre d -> Post a d) -> hoare Pre (ret a) Post Exn.
Proof. intros H w Hw; cbn; auto. Qed.

Lemma hoare_throw (e : string) Pre (Post : A -> Db -> Prop) Exn :
  (forall d, Pre d -> Exn d) -> hoare Pre (throw e) Post Exn.
Proof. intros H w Hw; cbn; auto. Qed.

Lemma hoare_bind (m : M A) (k : A -> M B) Pre (Mid : A -> Db -> Prop)
    (Post : B -> Db -> Prop) Exn :
  hoare Pre m Mid Exn ->
  (forall a, hoare (Mid a) (k a) Post Exn) ->
  hoare Pre (bind m k) Post Exn.
Proof.
  intros Hm Hk w Hw. unfold bind. specialize (Hm w Hw).
  destruct (m w) as [[a|e] w']; [apply Hk|]; assumption.
Qed.

Lemma hoare_query (f : Db -> A) Pre (Post : A -> Db -> Prop) Exn :
  (forall d, Pre d -> Post (f d) d) -> (forall d, Pre d -> Exn d) ->
  hoare Pre (query f) Post Exn.
Proof.
  intros Hp He [d plan] Hw. unfold query, bind, await; cbn in *.
  destruct plan as [|[e|] r]; cbn; auto.
Qed.

Lemma hoare_tryCatch (body : M A) (h : string -> M A) Pre
    (Post : A -> Db -> Prop) (Mid : Db -> Prop) Exn :
  hoare Pre body Post Mid ->
  (forall e, hoare Mid (h e) Post Exn) ->
  hoare Pre (tryCatch body h) Post Exn.
Proof.
  intros Hb Hh w Hw. unfold tryCatch. specialize (Hb w Hw).
  destruct (body w) as [[a|e] w']; [|apply Hh]; assumption.
Qed.

End HoareRules.

Lemma hoare_update (f : Db -> Db) (Pre : Db -> Prop)
    (Post : unit -> Db -> Prop) (Exn : Db -> Prop) :
  (forall d, Pre d -> Post tt (f d)) -> (forall d, Pre d -> Exn d) ->
  hoare Pre (update f) Post Exn.
Proof.
  intros Hp He [d plan] Hw. unfold update, bind, await; cbn in *.
  destruct plan as [|[e|] r]; cbn; auto.
Qed.


(** What [run] leaves in the database when the exception may escape. *)
Lemma keeps_run (h : M Response) (I : Db -> Prop) plan d :
  keeps I h -> I d -> I (snd (run h plan d)).
Proof.
  intros H Hd. specialize (H (mkWorld d plan) Hd). unfold run.
  destruct (h (mkWorld d plan)) as [[r|e] w']; cbn; assumption.
Qed.

Section KeepsRules.
Context {A B : Type} (I : Db -> Prop).

Lemma keeps_ret (a : A) : keeps I (ret a).
Proof. apply hoare_ret; auto. Qed.

Lemma keeps_throw (e : string) : keeps I (@throw A e).
Proof. apply hoare_throw; auto. Qed.

Lemma keeps_bind (m : M A) (k : A -> M B) :
  keeps I m -> (forall a, keeps I (k a)) -> keeps I (bind m k).
Proof. intros Hm Hk. eapply hoare_bind; [exact Hm|exact Hk]. Qed.

Lemma keeps_query (f : Db -> A) : keeps I (query f).
Proof. apply hoare_query; auto. Qed.

Lemma keeps_tryCatch (body : M A) (h : string -> M A) :
  keeps I body -> (forall e, keeps I (h e)) -> keeps I (tryCatch body h).
Proof. intros Hb Hh. eapply hoare_tryCatch; [exact Hb|exact Hh]. Qed.
End KeepsRules.

Lemma keeps_update (I : Db -> Prop) (f : Db -> Db) :
  (forall d, I d -> I (f d)) -> keeps I (update f).
Proof. intros H. apply hoare_update; auto. Qed.

(** What follows a [throw] does not run. *)
Lemma keeps_bind_throw {A B} (I : Db -> Prop) (e : string) (k : A -> M B) :
  keeps I (bind (throw e) k).
Proof. intros w Hw. exact Hw. Qed.

(** ** The upload to GridFS *)

Lemma insertChunks_run (fileId : ObjectId) (pieces : list (list byte)) :
  forall n d,
    insertChunks fileId n pieces (mkWorld d [])
    = (Ok tt,
       mkWorld (mkDb (users d) (packages d) (versions d) (fs d)
                  (chunks d ++ chunkDocs fileId n pieces)) []).
Proof.
  induction pieces as [|piece r IH]; intros n d.
  - destruct d; cbn. rewrite app_nil_r. reflexivity.
  - cbn [insertChunks chunkDocs]. unfold bind, update, await, ret. cbn.
    rewrite IH. cbn. rewrite <- app_assoc. reflexivity.
Qed.

(** An upload that the store lets through. *)
Lemma saveFileToGridFS_run (fileId : ObjectId) (buffer : list byte)
    (filename : string) (metadata : string * string) (d : Db) :
  saveFileToGridFS fileId buffer filename metadata (mkWorld d [])
  = (Ok fileId, mkWorld (uploaded fileId buffer filename metadata d) []).
Proof.
  unfold saveFileToGridFS, bind at 1. rewrite insertChunks_run.
  unfold bind, update, await, ret. reflexivity.
Qed.

(** An upload whose first store call is rejected has written nothing. *)
Lemma saveFileToGridFS_rejected (fileId : ObjectId) (buffer : list byte)
    (filename : string) (metadata : string * string) (d : Db) (e : string)
    (plan : list (option string)) :
  saveFileToGridFS fileId buffer filename metadata (mkWorld d (Some e :: plan))
  = (Throw e, mkWorld d plan).
Proof.
  unfold saveFileToGridFS.
  destruct (cut chunkSizeBytes [] buffer); reflexivity.
Qed.

Lemma hoare_insertChunks (fileId : ObjectId) (I : Db -> Prop)
    (pieces : list (list byte)) :
  (forall d c, I d ->
     I (mkDb (users d) (packages d) (versions d) (fs d) (chunks d ++ [c]))) ->
  forall n, keeps I (insertChunks fileId n pieces).
Proof.
  intros H. induction pieces as [|piece r IH]; intros n; cbn [insertChunks].
  - apply hoare_ret; auto.
  - eapply hoare_bind; [|intros ?; apply IH].
    apply hoare_update; auto.
Qed.

(** The upload as a whole: the chunks, then the document of the file. *)
Lemma hoare_saveFileToGridFS (fileId : ObjectId) (buffer : list byte)
    (filename : string) (metadata : string * string)
    (I : Db -> Prop) (Post : ObjectId -> Db -> Prop) :
  (forall d c, I d ->
     I (mkDb (users d) (packages d) (versions d) (fs d) (chunks d ++ [c]))) ->
  (forall d, I d ->
     Post fileId
       (mkDb (users d) (packages d) (versions d)
          (fs d ++ [GridFile.mk fileId filename metadata buffer])
          (chunks d))) ->
  hoare I (saveFileToGridFS fileId buffer filename metadata) Post I.
Proof.
  intros Hc Hf. unfold saveFileToGridFS.
  eapply hoare_bind; [apply hoare_insertChunks, Hc|]. intros [].
  eapply hoare_bind with (Mid := fun _ => Post fileId).
  - apply hoare_update; auto.
  - intros []. apply hoare_ret; auto.
Qed.

Lemma keeps_saveFileToGridFS (fileId : ObjectId) (buffer : list byte)
    (filename : string) (metadata : string * string) (I : Db -> Prop) :
  (forall d c, I d ->
     I (mkDb (users d) (packages d) (versions d) (fs d) (chunks d ++ [c]))) ->
  (forall d f, I d ->
     I (mkDb (users d) (packages d) (versions d) (fs d ++ [f]) (chunks d))) ->
  keeps I (saveFileToGridFS fileId buffer filename metadata).
Proof.
  intros Hc Hf. apply hoare_saveFileToGridFS; auto.
Qed.

(** Walks through a handler whose every store call keeps [I]. *)
Ltac keeps_step :=
  lazymatch goal with
  | |- keeps _ (ret _) => apply keeps_ret
  | |- keeps _ (throw _) => apply keeps_throw
  | |- keeps _ (query _) => apply keeps_query
  | |- keeps _ (update _) => apply keeps_update
  | |- keeps _ (saveFileToGridFS _ _ _ _) => apply keeps_saveFileToGridFS
  | |- keeps _ (tryCatch _ _) => apply keeps_tryCatch; [|intros ?]
  | |- keeps _ (bind (throw _) _) => apply keeps_bind_throw
  | |- keeps ?I (bind (ret ?a) ?k) => change (keeps I (k a)); cbv beta
  | |- keeps _ (bind _ _) => apply keeps_bind; [|intros ?]
  | |- keeps _ (match ?x with _ => _ end) => destruct x
  end.

Ltac keeps_auto := unfold_store; unfold ObjectId_new, answer, goOn; repeat keeps_step.

Ltac unfold_koa :=
  unfold Koa.handle, Koa.route_publish, Koa.route_deletePackage,
    Koa.route_removeAccount, Koa.authenticate, Koa.register, Koa.login,
    Koa.removeAccount, Koa.publish, Koa.deletePackage, Koa.download,
    Koa.searchPackages, Koa.getLatestVersion.


(** * Latest version *)

Lemma In_insertDesc (v x : Version.t) (l : list Version.t) :
  In x (insertDesc v l) <-> x = v \/ In x l.
Proof.
  induction l as [|y r IH]; cbn.
  - intuition congruence.
  - destruct (Version.publishedAt y <? Version.publishedAt v)%Z; cbn.
    + intuition congruence.
    + rewrite IH. intuition congruence.
Qed.

Lemma In_sortDesc (x : Version.t) (l : list Version.t) :
  In x (sortDesc l) <-> In x l.
Proof.
  induction l as [|v r IH]; cbn; [tauto|].
  rewrite In_insertDesc, IH. intuition congruence.
Qed.

(** The first document of the sorted list is one of the list and none of
    the list was published later. *)
Lemma sortDesc_head (l : list Version.t) (h : Version.t) (t : list Version.t) :
  sortDesc l = h :: t ->
  In h l /\
  forall x, In x l -> (Version.publishedAt x <= Version.publishedAt h)%Z.
Proof.
  revert h t. induction l as [|v r IH]; intros h t E; cbn in E; [discriminate|].
  destruct (sortDesc r) as [|y r'] eqn:Er; cbn in E.
  - injection E as <- <-.
    assert (r = []) as ->.
    { destruct r as [|z r0]; [reflexivity|].
      assert (In z (sortDesc (z :: r0))) as Hz by (apply In_sortDesc; left; reflexivity).
      rewrite Er in Hz. destruct Hz. }
    split; [left; reflexivity|]. intros x [<-|[]]. lia.
  - destruct (IH y r' eq_refl) as [Hy Hmax].
    destruct (Version.publishedAt y <? Version.publishedAt v)%Z eqn:Hlt.
    + injection E as <- <-. apply Z.ltb_lt in Hlt.
      split; [left; reflexivity|].
      intros x [<-|Hx]; [lia|]. specialize (Hmax x Hx). lia.
    + injection E as <- <-. apply Z.ltb_ge in Hlt.
      split; [right; assumption|].
      intros x [<-|Hx]; [lia|]. apply Hmax; assumption.
Qed.

Lemma sortDesc_nil (l : list Version.t) : sortDesc l = [] -> l = [].
Proof.
  destruct l as [|v r]; [reflexivity|]. intros E.
  assert (In v (sortDesc (v :: r))) as H by (apply In_sortDesc; left; reflexivity).
  rewrite E in H. destruct H.
Qed.

Lemma value_eq_dec (a b : value) : {a = b} + {a <> b}.
Proof. repeat decide equality. Defined.

Lemma Version_eq_dec (a b : Version.t) : {a = b} + {a <> b}.
Proof.
  decide equality;
    try apply string_dec; try apply Z.eq_dec; try apply Nat.eq_dec;
    try apply value_eq_dec; repeat decide equality.
Defined.

(** What [getLatestVersion] answers for a package that is in the store. *)
Inductive latestAnswer (d : Db) (pkg : Package.t) : Response -> Prop :=
  | latest_none :
      versionsOf d pkg = [] ->
      latestAnswer d pkg (json (Message "暂无版本") 200)
  | latest_some v :
      In v (versionsOf d pkg) ->
      (forall x, In x (versionsOf d pkg) ->
                 (Version.publishedAt x <= Version.publishedAt v)%Z) ->
      latestAnswer d pkg (json (VersionDoc v) 200).

Section LatestVersion.

Lemma latest_of_sorted (d : Db) (pkg : Package.t) :
  latestAnswer d pkg
    (match firstn 1 (sortDesc (versionsOf d pkg)) with
     | [] => json (Message "暂无版本") 200
     | v :: _ => json (VersionDoc v) 200
     end).
Proof.
  destruct (sortDesc (versionsOf d pkg)) as [|h t] eqn:E; cbn.
  - apply latest_none, sortDesc_nil, E.
  - destruct (sortDesc_head _ _ _ E) as [Hin Hmax].
    apply latest_some; assumption.
Qed.

Lemma koa_getLatestVersion_run (d : Db) (name : string) :
  run (Koa.getLatestVersion name) [] d =
  (match find (byName name) (packages d) with
   | None => json (Error "包不存在") 404
   | Some pkg =>
       match firstn 1 (sortDesc (versionsOf d pkg)) with
       | [] => json (Message "暂无版本") 200
       | v :: _ => json (VersionDoc v) 200
       end
   end, d).
Proof.
  unfold Koa.getLatestVersion. unfold_store. run_handler.
  fold (byName name). destruct (find (byName name) (packages d)) as [pkg|]; cbn.
  - fold (versionsOf d pkg).
    destruct (sortDesc (versionsOf d pkg)); reflexivity.
  - reflexivity.
Qed.

Lemma hono_getLatestVersion_run (d : Db) (name : string) :
  run (Hono.getLatestVersion name) [] d = run (Koa.getLatestVersion name) [] d.
Proof. reflexivity. Qed.

(** A Version published strictly later than every other one of the list
    comes first. *)
Lemma sortDesc_latest (l : list Version.t) (v2 : Version.t) :
  In v2 l ->
  (forall v1, In v1 l -> v1 <> v2 ->
              (Version.publishedAt v1 < Version.publishedAt v2)%Z) ->
  firstn 1 (sortDesc l) = [v2].
Proof.
  intros Hin Hlate. destruct (sortDesc l) as [|h t] eqn:E.
  - apply sortDesc_nil in E. subst l. destruct Hin.
  - destruct (sortDesc_head _ _ _ E) as [Hh Hmax]. cbn.
    destruct (Version_eq_dec h v2) as [->|Hne]; [reflexivity|].
    specialize (Hlate h Hh Hne). specialize (Hmax v2 Hin). lia.
Qed.

(** C7. [latestVersion] answers NotFound (404, "包不存在") for an unknown
    package and, for a known one, the explicit "暂无版本" message when the
    package has no Version, otherwise a Version of the package whose
    [publishedAt] no other Version of the package exceeds; a Version
    published strictly later than all others of its package (V2 after V1,
    t1 < t2) is the one returned.  This holds for both servers, and the
    request leaves the store as it was. *)
Theorem latestVersion_is_most_recent (d : Db) (name : string) :
  let koa := run (Koa.getLatestVersion name) [] d in
  let hono := run (Hono.getLatestVersion name) [] d in
  hono = koa /\ snd koa = d /\
  match find (byName name) (packages d) with
  | None => fst koa = json (Error "包不存在") 404
  | Some pkg =>
      latestAnswer d pkg (fst koa) /\
      forall v2,
        In v2 (versionsOf d pkg) ->
        (forall v1, In v1 (versionsOf d pkg) -> v1 <> v2 ->
                    (Version.publishedAt v1 < Version.publishedAt v2)%Z) ->
        fst koa = json (VersionDoc v2) 200
  end.
Proof.
  cbv zeta. rewrite hono_getLatestVersion_run, koa_getLatestVersion_run.
  cbn [fst snd].
  split; [reflexivity|]. split; [reflexivity|].
  destruct (find (byName name) (packages d)) as [pkg|]; [|reflexivity].
  split; [apply latest_of_sorted|].
  intros v2 Hin Hlate. rewrite (sortDesc_latest _ v2 Hin Hlate). reflexivity.
Qed.

End LatestVersion.

(** * Ownership and version uniqueness *)

Section KoaOwnership.
Context {P : Platform}.

(** The publish route of the Koa server writes nothing: a multipart
    request ends in [upload.single], any other request reaches the
    controller without a file. *)
Lemma koa_route_publish_keeps (I : Db -> Prop) (e : Koa.PublishEnv)
    (h : Headers) (r : Koa.ParsedBody) :
  keeps I (Koa.route_publish e h r).
Proof.
  destruct r; unfold Koa.route_publish, Koa.authenticate, Koa.publish;
    cbn [Koa.request_files Koa.request_body]; keeps_auto.
Qed.

Lemma koa_handle_keeps_empty (r : Koa.Request) :
  keeps registryIsEmpty (Koa.handle r).
Proof.
  destruct r; cbn [Koa.handle]; try apply koa_route_publish_keeps;
    unfold_koa; keeps_auto;
    intros d (Hp & Hv & Hf & Hc); unfold registryIsEmpty; cbn;
    rewrite ?Hp; auto.
Qed.

(** No package is ever stored through the Koa server. *)
Lemma koa_reachable_stores_no_package (d : Db) :
  Koa.reachable d -> registryIsEmpty d.
Proof.
  induction 1 as [|d d' _ IH (r & plan & _ & ->)].
  - repeat split.
  - apply (keeps_run _ registryIsEmpty); [|exact IH].
    apply koa_handle_keeps_empty.
Qed.

(** [pkg.owner.equals(userId)] on a stored string: the handler ends in
    its [catch]. *)
Lemma koa_publish_string_owner e userId b filepath bytes d pkg :
  Koa.readFile e filepath = Some bytes ->
  find (byName (Koa.packageName b)) (packages d) = Some pkg ->
  ownerIsString pkg = true ->
  run (Koa.publish e userId b (Koa.OneFile filepath)) [] d
  = (json (Error "pkg.owner.equals is not a function") 500, d).
Proof.
  intros Hf Hp Ho. unfold Koa.publish. unfold_store. rewrite Hf.
  run_handler. fold (byName (Koa.packageName b)). rewrite Hp. cbn.
  unfold ownerIsString in Ho. destruct (Package.owner pkg); [reflexivity|discriminate].
Qed.

(** [deletePackage] compares the stored string with the caller's. *)
Lemma koa_deletePackage_forbidden (d : Db) (a b name : string) pkg :
  find (byName name) (packages d) = Some pkg ->
  Package.owner pkg = VString a -> a <> b ->
  run (Koa.deletePackage (VString b) name) [] d
  = (json (Error "无权限删除此包") 403, d).
Proof.
  intros Hp Ho Hab. unfold Koa.deletePackage. unfold_store. run_handler.
  fold (byName name). rewrite Hp. cbn. rewrite Ho. cbn.
  apply String.eqb_neq in Hab. rewrite Hab. reflexivity.
Qed.

Lemma koa_deletePackage_owner (d : Db) (a name : string) pkg :
  find (byName name) (packages d) = Some pkg ->
  Package.owner pkg = VString a ->
  run (Koa.deletePackage (VString a) name) [] d
  = (json (Message "包删除成功") 200,
     mkDb (users d)
       (deleteFirst (fun p => ObjectId_eqb (Package._id p) (Package._id pkg))
          (packages d))
       (versions d) (fs d) (chunks d)).
Proof.
  intros Hp Ho. unfold Koa.deletePackage. unfold_store. run_handler.
  fold (byName name). rewrite Hp. cbn. rewrite Ho. cbn.
  rewrite String.eqb_refl. reflexivity.
Qed.
End KoaOwnership.

Section HonoOwnership.

Ltac hono_publish_start uid Ho N1 N2 N3 :=
  unfold Hono.publish, filledForm;
  destruct uid; [discriminate Ho|];
  unfold_store; unfold ObjectId_new; rewrite Ho;
  apply String.eqb_neq in N1, N2, N3; run_handler;
  rewrite N1, N2, N3; cbn.

(** The Hono server, on the same requests: Forbidden for another user. *)
Lemma hono_publish_forbidden e uid b name ver descr fname bytes d pkg a :
  newObjectId uid = Some b ->
  name <> EmptyString -> ver <> EmptyString -> descr <> EmptyString ->
  find (byName name) (packages d) = Some pkg ->
  Package.owner pkg = VObjectId a -> a <> b ->
  run (Hono.publish e (Some uid) (filledForm name ver descr fname bytes)) [] d
  = (json (Error "无权限发布此包") 403, d).
Proof.
  intros Ho N1 N2 N3 Hp Hown Hab. hono_publish_start uid Ho N1 N2 N3.
  fold (byName name). rewrite Hp. cbn. rewrite Hown. cbn.
  apply ObjectId_eqb_neq in Hab. rewrite Hab. reflexivity.
Qed.

(** The duplicate-version error for the owner, with nothing stored. *)
Lemma hono_publish_duplicate_version
    e uid o name ver descr fname bytes d pkg v :
  newObjectId uid = Some o ->
  name <> EmptyString -> ver <> EmptyString -> descr <> EmptyString ->
  find (byName name) (packages d) = Some pkg ->
  Package.owner pkg = VObjectId o ->
  find (byVersion (Package._id pkg) ver) (versions d) = Some v ->
  run (Hono.publish e (Some uid) (filledForm name ver descr fname bytes)) [] d
  = (json (Error "版本已存在") 400, d).
Proof.
  intros Ho N1 N2 N3 Hp Hown Hv. hono_publish_start uid Ho N1 N2 N3.
  fold (byName name). rewrite Hp. cbn. rewrite Hown. cbn.
  rewrite ObjectId_eqb_refl. cbn.
  fold (byVersion (Package._id pkg) ver). rewrite Hv. reflexivity.
Qed.

(** Success for the owner with a new version string: one blob, then one
    Version that names it. *)
Lemma hono_publish_owner e uid o name ver descr fname bytes d pkg :
  newObjectId uid = Some o ->
  name <> EmptyString -> ver <> EmptyString -> descr <> EmptyString ->
  find (byName name) (packages d) = Some pkg ->
  Package.owner pkg = VObjectId o ->
  find (byVersion (Package._id pkg) ver) (versions d) = None ->
  run (Hono.publish e (Some uid) (filledForm name ver descr fname bytes)) [] d
  = (json (Published "包发布成功" (Hono.newVersionId e)) 200,
     mkDb (users d) (packages d)
       (versions d ++
          [Version.mk (Hono.newVersionId e) (Package._id pkg) ver descr None
             (List.length bytes) (toHexString (Hono.newFileId e)) fname
             (VObjectId o) (Hono.now e) None])
       (fs d ++ [GridFile.mk (Hono.newFileId e) fname (name, ver) bytes])
       (chunks d ++ chunksOf (Hono.newFileId e) bytes)).
Proof.
  intros Ho N1 N2 N3 Hp Hown Hv. hono_publish_start uid Ho N1 N2 N3.
  fold (byName name). rewrite Hp. cbn. rewrite Hown. cbn.
  rewrite ObjectId_eqb_refl. cbn.
  fold (byVersion (Package._id pkg) ver). rewrite Hv.
  rewrite saveFileToGridFS_run. reflexivity.
Qed.

Lemma hono_deletePackage_forbidden (d : Db) uid a b name pkg :
  newObjectId uid = Some b ->
  find (byName name) (packages d) = Some pkg ->
  Package.owner pkg = VObjectId a -> a <> b ->
  run (Hono.deletePackage (Some uid) name) [] d
  = (json (Error "无权限删除此包") 403, d).
Proof.
  intros Ho Hp Hown Hab. unfold Hono.deletePackage.
  destruct uid; [discriminate Ho|].
  unfold_store. unfold ObjectId_new. rewrite Ho. run_handler.
  fold (byName name). rewrite Hp. cbn. rewrite Hown. cbn.
  apply ObjectId_eqb_neq in Hab. rewrite Hab. reflexivity.
Qed.

Lemma hono_deletePackage_owner (d : Db) uid a name pkg :
  newObjectId uid = Some a ->
  find (byName name) (packages d) = Some pkg ->
  Package.owner pkg = VObjectId a ->
  run (Hono.deletePackage (Some uid) name) [] d
  = (json (Message "包删除成功") 200,
     mkDb (users d)
       (deleteFirst (fun p => ObjectId_eqb (Package._id p) (Package._id pkg))
          (packages d))
       (versions d) (fs d) (chunks d)).
Proof.
  intros Ho Hp Hown. unfold Hono.deletePackage.
  destruct uid; [discriminate Ho|].
  unfold_store. unfold ObjectId_new. rewrite Ho. run_handler.
  fold (byName name). rewrite Hp. cbn. rewrite Hown. cbn.
  rewrite ObjectId_eqb_refl. reflexivity.
Qed.
End HonoOwnership.

(** In the Hono server, a Version published by the owner at a time later
    than all Versions of the package is what [getLatestVersion] returns
    from then on. *)
Lemma hono_later_publish_is_latest
    e uid o name ver descr fname bytes d pkg :
  newObjectId uid = Some o ->
  name <> EmptyString -> ver <> EmptyString -> descr <> EmptyString ->
  find (byName name) (packages d) = Some pkg ->
  Package.owner pkg = VObjectId o ->
  find (byVersion (Package._id pkg) ver) (versions d) = None ->
  (forall v1, In v1 (versionsOf d pkg) ->
              (Version.publishedAt v1 < Hono.now e)%Z) ->
  let d' := snd (run (Hono.publish e (Some uid)
                        (filledForm name ver descr fname bytes)) [] d) in
  exists v2,
    fst (run (Hono.getLatestVersion name) [] d') = json (VersionDoc v2) 200 /\
    Version.version v2 = ver /\ Version.publishedAt v2 = Hono.now e.
Proof.
  intros Ho N1 N2 N3 Hp Hown Hv Hclock. cbv zeta.
  rewrite (hono_publish_owner e uid o name ver descr fname bytes d pkg
             Ho N1 N2 N3 Hp Hown Hv).
  cbn [snd]. rewrite hono_getLatestVersion_run, koa_getLatestVersion_run.
  cbn [fst packages]. rewrite Hp.
  unfold versionsOf. cbn [versions]. rewrite filter_app. cbn [filter Version.package].
  rewrite ObjectId_eqb_refl. fold (versionsOf d pkg).
  match goal with
  | |- context [(versionsOf d pkg ++ [?v])%list] => set (v2 := v)
  end.
  rewrite (sortDesc_latest _ v2).
  - exists v2. split; [reflexivity|]. split; reflexivity.
  - apply in_or_app. right. left. reflexivity.
  - intros v1 Hin Hne. apply in_app_or in Hin as [Hin|[<-|[]]].
    + cbn. apply Hclock, Hin.
    + contradiction Hne; reflexivity.
Qed.

(** * Registration and login *)

Section Accounts.
Context {P : Platform}.

(** The Koa server refuses a user name that is taken, storing nothing. *)
Lemma koa_register_conflict (e : Koa.RegisterEnv) (username password : string)
    (d : Db) (u : User.t) :
  find (byUsername username) (users d) = Some u ->
  run (Koa.register e username password) [] d
  = (json (Error "用户名已存在") 400, d).
Proof.
  intros Hu. unfold Koa.register. unfold_store. run_handler.
  fold (byUsername username). rewrite Hu. reflexivity.
Qed.

(** With a fresh name it stores the hash of the password and a new key. *)
Lemma koa_register_fresh (e : Koa.RegisterEnv) (username password : string)
    (d : Db) :
  find (byUsername username) (users d) = None ->
  run (Koa.register e username password) [] d
  = (json (Credentials None (Koa.newUserId e)
             (generateApiKey (Koa.entropy e))) 201,
     mkDb (users d ++
             [User.mk (Koa.newUserId e) username
                (bcrypt_hash password 10 (Koa.salt e))
                (generateApiKey (Koa.entropy e))
                (Some (Koa.registeredAt e)) (Some (Koa.registeredAt e))])
          (packages d) (versions d) (fs d) (chunks d)).
Proof.
  intros Hu. unfold Koa.register. unfold_store. run_handler.
  fold (byUsername username). rewrite Hu. reflexivity.
Qed.

(** C5. The Hono server does not look for an existing user: a register
    call with a user name that is already stored is answered 201 with a
    new id and key, and a second User document of that name is stored
    (its password as the argon2 hash). *)
Theorem hono_register_existing_username
    (e : Hono.RegisterEnv) (username password : string) (d : Db) (u : User.t) :
  username <> EmptyString -> password <> EmptyString ->
  find (byUsername username) (users d) = Some u ->
  run (Hono.register e (Some username) (Some password)) [] d
  = (json (Credentials None (Hono.newUserId e)
             (generateApiKey (Hono.entropy e))) 201,
     mkDb (users d ++
             [User.mk (Hono.newUserId e) username
                (argon2_hash password (Hono.salt e))
                (generateApiKey (Hono.entropy e)) None None])
          (packages d) (versions d) (fs d) (chunks d)).
Proof.
  intros N1 N2 _. unfold Hono.register. unfold_store.
  apply String.eqb_neq in N1, N2. run_handler. rewrite N1, N2. reflexivity.
Qed.

(** Login in the Koa server: unknown user, wrong password, success. *)
Lemma koa_login_unknown (at_ : Z) (username password : string) (d : Db) :
  find (byUsername username) (users d) = None ->
  run (Koa.login at_ username password) [] d
  = (json (Error "用户不存在") 401, d).
Proof.
  intros Hu. unfold Koa.login. unfold_store. run_handler.
  fold (byUsername username). rewrite Hu. reflexivity.
Qed.

Lemma koa_login_wrong_password (at_ : Z) (username password : string)
    (d : Db) (user : User.t) :
  find (byUsername username) (users d) = Some user ->
  bcrypt_compare password (User.password user) = false ->
  run (Koa.login at_ username password) [] d
  = (json (Error "密码错误") 401, d).
Proof.
  intros Hu Hpw. unfold Koa.login. unfold_store. run_handler.
  fold (byUsername username). rewrite Hu. cbn. rewrite Hpw. reflexivity.
Qed.

Lemma koa_login_success (at_ : Z) (username password : string)
    (d : Db) (user : User.t) :
  find (byUsername username) (users d) = Some user ->
  bcrypt_compare password (User.password user) = true ->
  run (Koa.login at_ username password) [] d
  = (json (Credentials (Some "登录成功") (User._id user) (User.apiKey user)) 200,
     mkDb (updateFirst (fun u => ObjectId_eqb (User._id u) (User._id user))
             (User.set_lastLogin at_) (users d))
          (packages d) (versions d) (fs d) (chunks d)).
Proof.
  intros Hu Hpw. unfold Koa.login. unfold_store. run_handler.
  fold (byUsername username). rewrite Hu. cbn. rewrite Hpw. reflexivity.
Qed.

Lemma hono_login_unknown (username password : string) (d : Db) :
  username <> EmptyString -> password <> EmptyString ->
  find (byUsername username) (users d) = None ->
  run (Hono.login (Some username) (Some password)) [] d
  = (json (Error "用户不存在") 404, d).
Proof.
  intros N1 N2 Hu. unfold Hono.login. unfold_store.
  apply String.eqb_neq in N1, N2. run_handler. rewrite N1, N2. cbn.
  fold (byUsername username). rewrite Hu. reflexivity.
Qed.

(** C8. A successful login in the Hono server returns the stored id and
    key and writes nothing: the database after it is the database before
    it, so no [lastLogin] is updated. *)
Theorem hono_login_updates_nothing
    (username password : string) (d : Db) (user : User.t) :
  username <> EmptyString -> password <> EmptyString ->
  find (byUsername username) (users d) = Some user ->
  argon2_verify (User.password user) password = true ->
  run (Hono.login (Some username) (Some password)) [] d
  = (json (Credentials None (User._id user) (User.apiKey user)) 200, d).
Proof.
  intros N1 N2 Hu Hpw. unfold Hono.login. unfold_store.
  apply String.eqb_neq in N1, N2. run_handler. rewrite N1, N2. cbn.
  fold (byUsername username). rewrite Hu. cbn. rewrite Hpw. reflexivity.
Qed.
End Accounts.

(** alice is registered; "alice" registers again in the Hono server. *)
Lemma hono_register_existing_username_witness :
  let e := Hono.mkRegisterEnv (oid "9") [] [xcc] in
  let d' := snd (run (Hono.register (P := samplePlatform) e
                        (Some "alice") (Some "other")) [] Scenario.H.registered) in
  status (fst (run (Hono.register (P := samplePlatform) e
                      (Some "alice") (Some "other")) [] Scenario.H.registered))
  = 201 /\
  List.length (filter (byUsername "alice") (users d')) = 2.
Proof.
  cbv zeta.
  rewrite (hono_register_existing_username (P := samplePlatform)
             (Hono.mkRegisterEnv (oid "9") [] [xcc]) "alice" "other"
             Scenario.H.registered
             (User.mk (oid "1") "alice" "argon2:pw123" "aa" None None)).
  - split; reflexivity.
  - discriminate.
  - discriminate.
  - reflexivity.
Defined.

(** alice logs in to the Hono server. *)
Lemma hono_login_updates_nothing_witness :
  run (Hono.login (P := samplePlatform) (Some "alice") (Some "pw123")) []
    Scenario.H.registered
  = (json (Credentials None (oid "1") "aa") 200, Scenario.H.registered).
Proof.
  apply (hono_login_updates_nothing (P := samplePlatform) "alice" "pw123"
           Scenario.H.registered
           (User.mk (oid "1") "alice" "argon2:pw123" "aa" None None)).
  - discriminate.
  - discriminate.
  - reflexivity.
  - reflexivity.
Defined.

(** * Content hash *)

Lemma find_app_none {A} (f : A -> bool) (l l' : list A) :
  find f l = None -> find f (l ++ l') = find f l'.
Proof.
  induction l as [|x r IH]; cbn; [reflexivity|].
  destruct (f x); [discriminate|exact IH].
Qed.


Section ContentHash.
Context {P : Platform}.

(** The first publish of a package in the Koa server, spelled out. *)
Lemma koa_publish_new_package (e : Koa.PublishEnv) (userId : value)
    (b : Koa.PublishBody) (filepath : string) (bytes : list byte) (d : Db) :
  Koa.readFile e filepath = Some bytes ->
  find (byName (Koa.packageName b)) (packages d) = None ->
  find (byVersion (Koa.newPackageId e) (Koa.version b)) (versions d) = None ->
  run (Koa.publish e userId b (Koa.OneFile filepath)) [] d
  = (json (Published "包发布成功" (Koa.newVersionId e)) 200,
     mkDb (users d)
       (packages d ++
          [Package.mk (Koa.newPackageId e) (Koa.packageName b)
             (Koa.description b) userId (Koa.now e) (Koa.now e) (Some 0%Z)])
       (versions d ++
          [Version.mk (Koa.newVersionId e) (Koa.newPackageId e) (Koa.version b)
             (Koa.description b) (Some (sha256_hex bytes)) (List.length bytes)
             (toHexString (Koa.newFileId e)) (basename filepath) userId
             (Koa.now e) (Some 0%Z)])
       (fs d ++
          [GridFile.mk (Koa.newFileId e) (basename filepath)
             (Koa.packageName b, Koa.version b) bytes])
       (chunks d ++ chunksOf (Koa.newFileId e) bytes)).
Proof.
  intros Hf Hp Hv. unfold Koa.publish. unfold_store. rewrite Hf.
  run_handler. fold (byName (Koa.packageName b)). rewrite Hp. cbn.
  fold (byVersion (Koa.newPackageId e) (Koa.version b)). rewrite Hv.
  rewrite saveFileToGridFS_run. reflexivity.
Qed.

(** In the Koa controller the hash recorded by that publish is the
    SHA-256 of the bytes which the download stream of the same package and
    version yields, when the ids drawn for the package and the file are new
    and the name of the uploaded file may stand in a header. *)
Lemma koa_publish_download_roundtrip (e : Koa.PublishEnv) (userId : value)
    (b : Koa.PublishBody) (filepath : string) (bytes : list byte) (d : Db) :
  Koa.readFile e filepath = Some bytes ->
  find (byName (Koa.packageName b)) (packages d) = None ->
  find (byVersion (Koa.newPackageId e) (Koa.version b)) (versions d) = None ->
  streamContents d (Koa.newFileId e) = None ->
  isObjectId (Koa.newFileId e) = true ->
  res_setHeader "Content-Disposition" (contentDisposition (basename filepath))
  = None ->
  let d' := snd (run (Koa.publish e userId b (Koa.OneFile filepath)) [] d) in
  exists v headers,
    find (byVersion (Koa.newPackageId e) (Koa.version b)) (versions d') = Some v /\
    Version.sha256 v = Some (sha256_hex bytes) /\
    run (Koa.download (Koa.packageName b) (Koa.version b)) [] d'
    = (mkResponse 200 (Stream (Koa.newFileId e)) headers, d') /\
    streamContents d' (Koa.newFileId e) = Some bytes.
Proof.
  intros Hf Hp Hv Hs Hid Hh. cbv zeta.
  rewrite (koa_publish_new_package e userId b filepath bytes d Hf Hp Hv). cbn.
  eexists. eexists. split; [|split; [|split]].
  - rewrite (find_app_none _ _ _ Hv). cbn.
    unfold byVersion. cbn. rewrite ObjectId_eqb_refl, String.eqb_refl. cbn.
    reflexivity.
  - reflexivity.
  - unfold Koa.download. unfold_store. run_handler.
    fold (byName (Koa.packageName b)). rewrite (find_app_none _ _ _ Hp). cbn.
    unfold byName. cbn. rewrite String.eqb_refl. cbn.
    fold (byVersion (Koa.newPackageId e) (Koa.version b)).
    rewrite (find_app_none _ _ _ Hv). cbn.
    unfold byVersion. cbn. rewrite ObjectId_eqb_refl, String.eqb_refl. cbn.
    rewrite (isObjectId_new _ Hid). run_handler. rewrite Hh. reflexivity.
  - unfold streamContents in *. cbn.
    destruct (find (fun f => ObjectId_eqb (GridFile._id f) (Koa.newFileId e)) (fs d))
      eqn:E; [discriminate Hs|].
    rewrite (find_app_none _ _ _ E). cbn. rewrite ObjectId_eqb_refl. reflexivity.
Qed.

(** C3. The Hono server computes no digest: whatever the request and the
    fault plan, a Version that is in the store after a publish and was not
    there before has no [sha256]. *)
Theorem hono_publish_stores_no_hash
    (e : Hono.PublishEnv) (userIdHeader : option string)
    (body : Hono.RequestBody)
    (plan : list (option string)) (d : Db) (v : Version.t) :
  In v (versions (snd (run (Hono.publish e userIdHeader body) plan d))) ->
  In v (versions d) \/ Version.sha256 v = None.
Proof.
  revert v.
  apply (keeps_run _ (fun d' => forall v, In v (versions d') ->
                                 In v (versions d) \/ Version.sha256 v = None));
    [|auto].
  unfold Hono.publish. keeps_auto; intros; cbn in *; auto.
  match goal with
  | H : In _ (_ ++ _) |- _ => apply in_app_iff in H as [Hv|[<-|[]]]
  end; [auto|right; reflexivity].
Qed.
End ContentHash.

(** The Version of leftpad 1.0.0 that alice published to the Hono server. *)
Lemma hono_publish_stores_no_hash_witness :
  let v := Version.mk (oid "5") (oid "3") "1.0.0" "pads on the left" None 10
             "000000000000000000000004" "leftpad.tgz" (VObjectId (oid "1"))
             200 None in
  In v (versions Scenario.H.published) /\
  (In v (versions Scenario.H.registered) \/ Version.sha256 v = None).
Proof.
  cbv zeta. split; [left; reflexivity|].
  apply (hono_publish_stores_no_hash
           (Hono.mkPublishEnv 200 (oid "3") (oid "4") (oid "5"))
           (Some Scenario.aliceId)
           (filledForm "leftpad" "1.0.0" "pads on the left" "leftpad.tgz"
              payload)
           [] Scenario.H.registered).
  left; reflexivity.
Defined.

(** * Download *)

Section Download.
Context {P : Platform}.

Lemma koa_download_keeps (I : Db -> Prop) (name ver : string) :
  keeps I (Koa.download name ver).
Proof. unfold Koa.download. keeps_auto. Qed.

Lemma hono_download_keeps (I : Db -> Prop) (name ver : string) :
  keeps I (Hono.download name ver).
Proof. unfold Hono.download. keeps_auto. Qed.

(** C6. A download counts nothing.  For every download, in both servers
    and whatever the fault plan, the database is left as it was: no
    download counter is changed, not the [downloads] that the Koa publish
    sets to 0 either.  The rest is as the claim has it: when the store
    answers, the result is 404 "包不存在" for an unknown package and 404
    "版本不存在" when the package has no Version of that version string;
    otherwise the artifact is served from a read stream opened on the blob
    id in the Version's [filePath]: the Koa server hands the stream over as
    the body, the Hono server sends the bytes read from it.  Both put the
    stored file name into [Content-Disposition], and answer 500 when that
    name cannot stand in a header. *)
Theorem download_serves_blob_and_counts_nothing
    (d : Db) (name ver : string) :
  (forall plan,
     snd (run (Koa.download name ver) plan d) = d /\
     snd (run (Hono.download name ver) plan d) = d) /\
  let koa := fst (run (Koa.download name ver) [] d) in
  let hono := fst (run (Hono.download name ver) [] d) in
  match find (byName name) (packages d) with
  | None =>
      koa = json (Error "包不存在") 404 /\ hono = json (Error "包不存在") 404
  | Some pkg =>
      match find (byVersion (Package._id pkg) ver) (versions d) with
      | None =>
          koa = json (Error "版本不存在") 404 /\
          hono = json (Error "版本不存在") 404
      | Some v =>
          let disposition := contentDisposition (Version.filename v) in
          forall fileId, newObjectId (Version.filePath v) = Some fileId ->
            match res_setHeader "Content-Disposition" disposition with
            | None => koa = mkResponse 200 (Stream fileId) (downloadHeaders v)
            | Some message => koa = json (Error message) 500
            end /\
            forall bytes, streamContents d fileId = Some bytes ->
              match c_header "Content-Disposition" disposition with
              | None =>
                  hono = mkResponse 200 (Buffer bytes) (downloadHeaders v)
              | Some message => hono = json (Error message) 500
              end
      end
  end.
Proof.
  split.
  { intros plan.
    split; apply (keeps_run _ (fun d' => d' = d));
      solve [apply koa_download_keeps | apply hono_download_keeps
            | reflexivity]. }
  cbv zeta. unfold Koa.download, Hono.download. unfold_store. run_handler.
  fold (byName name).
  destruct (find (byName name) (packages d)) as [pkg|]; cbn; [|split; reflexivity].
  fold (byVersion (Package._id pkg) ver).
  destruct (find (byVersion (Package._id pkg) ver) (versions d)) as [v|]; cbn;
    [|split; reflexivity].
  intros fileId Hid. rewrite Hid. run_handler. split.
  - destruct (res_setHeader _ _); reflexivity.
  - intros bytes Hb. rewrite Hb. run_handler.
    destruct (c_header _ _); reflexivity.
Qed.
End Download.

(** Anybody downloads what alice has published to the Hono server: the
    answer is the ten bytes, and the store after the download is the store
    before it.  A file whose name has a character above U+00FF is
    published with success, and its download is answered 500. *)
Lemma hono_download_scenario :
  let d := Scenario.H.published in
  let r := run (Hono.download (P := samplePlatform) "leftpad" "1.0.0") [] d in
  let wide := run (Hono.publish
                     (Hono.mkPublishEnv 300 (oid "6") (oid "7") (oid "8"))
                     (Some Scenario.aliceId)
                     (filledForm "leftpad" "2.0.0" "next" "包.tgz" payload))
                [] d in
  r = (mkResponse 200 (Buffer payload)
         [("Content-Type", "application/octet-stream");
          ("Content-Disposition", contentDisposition "leftpad.tgz")], d) /\
  status (fst wide) = 200 /\
  run (Hono.download (P := samplePlatform) "leftpad" "2.0.0") [] (snd wide)
  = (json (Error "Cannot convert argument to a ByteString") 500, snd wide).
Proof. cbv zeta. repeat split. Qed.

(** * Account removal *)

Section AccountRemoval.
Context {P : Platform}.

(** What the query handlers of the Hono server answer depends on the
    packages, the Versions and the files only. *)
Lemma hono_queries_read_registry (d d' : Db) :
  packages d' = packages d -> versions d' = versions d -> fs d' = fs d ->
  (forall q, fst (run (Hono.searchPackages q) [] d')
             = fst (run (Hono.searchPackages q) [] d)) /\
  (forall name, fst (run (Hono.getLatestVersion name) [] d')
                = fst (run (Hono.getLatestVersion name) [] d)) /\
  (forall name ver, fst (run (Hono.download name ver) [] d')
                    = fst (run (Hono.download name ver) [] d)).
Proof.
  intros Hp Hv Hf. split; [|split].
  - intros q. unfold Hono.searchPackages. unfold_store.
    destruct (regex _ _); run_handler; rewrite ?Hp; reflexivity.
  - intros name. rewrite !hono_getLatestVersion_run, !koa_getLatestVersion_run.
    cbn [fst]. unfold versionsOf. rewrite Hp, Hv. reflexivity.
  - intros name ver. unfold Hono.download. unfold_store. run_handler.
    rewrite Hp.
    destruct (find _ (packages d)) as [pkg|]; cbn; [|reflexivity].
    rewrite Hv.
    destruct (find _ (versions d)) as [v|]; cbn; [|reflexivity].
    destruct (newObjectId (Version.filePath v)) as [fileId|]; cbn;
      [|reflexivity].
    unfold streamContents. rewrite Hf.
    destruct (find _ (fs d)) as [f|]; cbn; [|reflexivity].
    destruct (c_header _ _); reflexivity.
Qed.

Lemma hono_removeAccount_keeps (I : Db -> Prop) (userId : option string) :
  (forall d f, I d ->
     I (mkDb (deleteFirst f (users d)) (packages d) (versions d) (fs d)
          (chunks d))) ->
  keeps I (Hono.removeAccount userId).
Proof.
  intros H. unfold Hono.removeAccount. keeps_auto. intros d Hd. apply H, Hd.
Qed.

(** C4. The removal of an account does not cascade.  In the Hono server
    [removeAccount], alone or behind [authenticate], whatever the user id
    and whichever store calls fail, leaves every Package, every Version
    and every blob in the store, so that search, latestVersion and download
    answer for every package what they answered before the removal.  The
    Koa [removeAccount], which does delete packages, deletes no Version and
    no blob either. *)
Theorem hono_removeAccount_keeps_packages
    (h : Headers) (userId : option string) (plan : list (option string))
    (d : Db) :
  let d' := snd (run (Hono.removeAccount userId) plan d) in
  let viaRoute := snd (run (Hono.route_removeAccount h) plan d) in
  (packages d' = packages d /\ versions d' = versions d /\ fs d' = fs d) /\
  (packages viaRoute = packages d /\ versions viaRoute = versions d /\
   fs viaRoute = fs d) /\
  (forall q, fst (run (Hono.searchPackages q) [] viaRoute)
             = fst (run (Hono.searchPackages q) [] d)) /\
  (forall name, fst (run (Hono.getLatestVersion name) [] viaRoute)
                = fst (run (Hono.getLatestVersion name) [] d)) /\
  (forall name ver, fst (run (Hono.download name ver) [] viaRoute)
                    = fst (run (Hono.download name ver) [] d)) /\
  versions (snd (run (Koa.removeAccount userId) plan d)) = versions d /\
  fs (snd (run (Koa.removeAccount userId) plan d)) = fs d.
Proof.
  cbv zeta.
  set (I := fun x => packages x = packages d /\ versions x = versions d /\
                     fs x = fs d).
  assert (Hh : I (snd (run (Hono.removeAccount userId) plan d))).
  { apply (keeps_run _ I); [|repeat split].
    apply hono_removeAccount_keeps. intros x f Hx. exact Hx. }
  assert (Hr : I (snd (run (Hono.route_removeAccount h) plan d))).
  { apply (keeps_run _ I); [|repeat split].
    unfold Hono.route_removeAccount, Hono.authenticate.
    keeps_auto; try apply hono_removeAccount_keeps; intros x f Hx; exact Hx. }
  split; [exact Hh|]. split; [exact Hr|].
  destruct Hr as (Hp & Hv & Hf).
  destruct (hono_queries_read_registry d _ Hp Hv Hf) as (Hq & Hl & Hd).
  split; [exact Hq|]. split; [exact Hl|]. split; [exact Hd|].
  apply (keeps_run _ (fun x => versions x = versions d /\ fs x = fs d));
    [|split; reflexivity].
  unfold Koa.removeAccount. keeps_auto; intros x Hx; exact Hx.
Qed.
End AccountRemoval.

(** alice removes her account in the Hono server after she has published
    leftpad 1.0.0: the call succeeds and her User document is gone, but the
    package, still owned by her id, its Version and its blob are stored as
    before, and the package is found by search, latestVersion and download
    as before. *)
Lemma hono_removed_owner_keeps_package :
  let d := Scenario.H.published in
  let r := run (Hono.route_removeAccount Scenario.alice) [] d in
  fst r = json (Message "用户删除成功") 200 /\
  map User.username (users d) = ["alice"; "bob"] /\
  map User.username (users (snd r)) = ["bob"] /\
  map Package.owner (packages (snd r)) = [VObjectId (oid "1")] /\
  List.length (versions (snd r)) = 1 /\ List.length (fs (snd r)) = 1 /\
  fst (run (Hono.searchPackages (P := samplePlatform) (Some "leftpad")) []
         (snd r))
  = json (PackageList (packages d)) 200 /\
  status (fst (run (Hono.getLatestVersion "leftpad") [] (snd r))) = 200 /\
  fst (run (Hono.download (P := samplePlatform) "leftpad" "1.0.0") [] (snd r))
  = mkResponse 200 (Buffer payload)
      [("Content-Type", "application/octet-stream");
       ("Content-Disposition", contentDisposition "leftpad.tgz")].
Proof. cbv zeta. repeat split. Qed.

(** * Blob before Version *)

Section PublishEffect.
Context {P : Platform}.
Variable d : Db.
Variable fileId : ObjectId.

Let failed (d' : Db) : Prop :=
  versions d' = versions d /\
  (fs d' = fs d \/ exists f, fs d' = (fs d ++ [f])%list).











End PublishEffect.



Section BlobReferences.
Context {P : Platform}.










(** In the Hono server every request but a publish does. *)




End BlobReferences.

(** A publish that fails late, in the Hono server.  When the insertion
    of the Version is rejected, the blob written just before stays in the
    bucket and no Version names it; when the document of the file is
    rejected, the chunk written just before stays and there is no blob. *)
Lemma hono_failed_publish_leaves_orphan_blob :
  let publish := Hono.route_publish
                   (Hono.mkPublishEnv 300 (oid "6") (oid "7") (oid "8"))
                   Scenario.alice
                   (filledForm "leftpad" "2.0.0" "next" "leftpad.tgz" payload) in
  let r := run publish [None; None; None; None; None; Some "connection lost"]
             Scenario.H.published in
  let r' := run publish [None; None; None; None; Some "connection lost"]
              Scenario.H.published in
  fst r = json (Error "connection lost") 500 /\
  versions (snd r) = versions Scenario.H.published /\
  map GridFile._id (fs (snd r)) = [oid "4"; oid "7"] /\
  blobRefsOk (snd r) = true /\
  fst r' = json (Error "connection lost") 500 /\
  versions (snd r') = versions Scenario.H.published /\
  fs (snd r') = fs Scenario.H.published /\
  map Chunk.files_id (chunks (snd r')) = [oid "4"; oid "7"].
Proof. cbv zeta. repeat split. Qed.

(** * The scenario, request by request *)

(** Hono server: alice publishes leftpad 1.0.0 and it is the latest
    version; publishing it again is refused; bob may neither delete the
    package nor publish to it; anybody downloads the ten bytes; alice
    publishes 2.0.0 later and that is then the latest version. *)
Lemma hono_scenario :
  let d := Scenario.H.published in
  let again := Scenario.H.exec
                 (Scenario.H.publishAs Scenario.alice "1.0.0" 300 "6" "7" "8") d in
  let next := Scenario.H.exec
                (Scenario.H.publishAs Scenario.alice "2.0.0" 300 "6" "7" "8") d in
  (exists v, fst (run (Hono.getLatestVersion "leftpad") [] d)
             = json (VersionDoc v) 200 /\ Version.version v = "1.0.0") /\
  again = (json (Error "版本已存在") 400, d) /\
  Scenario.H.exec (Hono.DeletePackage Scenario.bob "leftpad") d
  = (json (Error "无权限删除此包") 403, d) /\
  Scenario.H.exec (Scenario.H.publishAs Scenario.bob "2.0.0" 300 "6" "7" "8") d
  = (json (Error "无权限发布此包") 403, d) /\
  body (fst (run (Hono.download (P := samplePlatform) "leftpad" "1.0.0") [] d))
  = Buffer payload /\
  fst next = json (Published "包发布成功" (oid "8")) 200 /\
  (exists v, fst (run (Hono.getLatestVersion "leftpad") [] (snd next))
             = json (VersionDoc v) 200 /\ Version.version v = "2.0.0") /\
  fst (Scenario.H.exec (Hono.DeletePackage Scenario.alice "leftpad") d)
  = json (Message "包删除成功") 200.
Proof.
  cbv zeta. split; [eexists; split; reflexivity|].
  split; [reflexivity|]. split; [reflexivity|]. split; [reflexivity|].
  split; [reflexivity|]. split; [reflexivity|].
  split; [eexists; split; reflexivity|reflexivity].
Qed.

(** Koa server.  A publish request that uploads a file is stopped by
    [upload.single] and answered 500, and one that is not multipart reaches
    the controller without a file and is answered 400: neither stores
    anything.  The controller itself, when it is given an upload, stores the
    package under the header string; after that it answers 500 to every
    further publish to the package, by alice or by bob, of a new or of the
    same version string, while the deletion compares the two strings. *)
Lemma koa_scenario :
  let d := Scenario.K.published in
  let typeError := json (Error "pkg.owner.equals is not a function") 500 in
  Scenario.K.exec (Scenario.K.publishAs Scenario.alice "1.0.0" 200 "3" "4" "5")
    Scenario.K.registered
  = (json (Error "Internal Server Error") 500, Scenario.K.registered) /\
  Scenario.K.exec
    (Koa.Publish (Koa.mkPublishEnv 200 (oid "3") (oid "4") (oid "5")
                    Scenario.K.disk) Scenario.alice
       (Koa.Fields (Koa.mkPublishBody "leftpad" "1.0.0" "pads on the left")))
    Scenario.K.registered
  = (json (Error "文件未上传") 400, Scenario.K.registered) /\
  map Package.owner (packages d) = [VString Scenario.aliceId] /\
  run (Scenario.K.publishCall Scenario.aliceId "2.0.0" 300 "6" "7" "8") [] d
  = (typeError, d) /\
  run (Scenario.K.publishCall Scenario.aliceId "1.0.0" 300 "6" "7" "8") [] d
  = (typeError, d) /\
  run (Scenario.K.publishCall Scenario.bobId "2.0.0" 300 "6" "7" "8") [] d
  = (typeError, d) /\
  Scenario.K.exec (Koa.DeletePackage Scenario.bob "leftpad") d
  = (json (Error "无权限删除此包") 403, d) /\
  fst (Scenario.K.exec (Koa.DeletePackage Scenario.alice "leftpad") d)
  = json (Message "包删除成功") 200.
Proof. cbv zeta. repeat split. Qed.

(** * Authentication middleware *)

Lemma hono_authenticate_as_koa (h : Headers) (next : string -> M Response)
    (w : World) :
  Hono.authenticate h next w = Koa.authenticate h next w.
Proof.
  unfold Hono.authenticate, Koa.authenticate, Koa.ctx_get.
  destruct h as [[[|c1 k]|] [[|c2 s]|]]; reflexivity.
Qed.

(** X1. The two servers guard their routes alike: on every request, with
    every handler behind it and in every state of the store and of its
    faults, the [authenticate] of the Hono server does what the one of the
    Koa server does. *)
Theorem authenticate_servers_agree (h : Headers)
    (next : string -> M Response) (plan : list (option string)) (d : Db) :
  Hono.authenticate h next (mkWorld d plan)
  = Koa.authenticate h next (mkWorld d plan) /\
  run (Hono.authenticate h next) plan d = run (Koa.authenticate h next) plan d.
Proof.
  split; [apply hono_authenticate_as_koa|].
  unfold run. rewrite hono_authenticate_as_koa. reflexivity.
Qed.

Lemma koa_authenticate_refuses (d : Db) (h : Headers)
    (next : string -> M Response) (plan : list (option string)) :
  credentialsOk d h = false ->
  snd (run (Koa.authenticate h next) plan d) = d /\
  (status (fst (run (Koa.authenticate h next) plan d)) = 401 \/
   status (fst (run (Koa.authenticate h next) plan d)) = 500).
Proof.
  unfold credentialsOk, Koa.authenticate, Koa.ctx_get, Koa.respond.
  destruct h as [[[|c1 k]|] [[|c2 s]|]]; cbn;
    try (intros _; split; [reflexivity|left; reflexivity]).
  unfold ObjectId_new. destruct (newObjectId (String c2 s)) as [o|];
    [|intros _; split; [reflexivity|right; reflexivity]].
  unfold_store. unfold run, bind, query, await, ret. cbn.
  fold (byUserId o).
  destruct plan as [|[e|] plan]; cbn;
    try (intros _; split; [reflexivity|right; reflexivity]);
    (destruct (find (byUserId o) (users d)) as [u|]; cbn;
     [|intros _; split; [reflexivity|left; reflexivity]];
     intros H; rewrite H; cbn; split; [reflexivity|left; reflexivity]).
Qed.

(** X2. No handler runs without valid credentials: when the headers of a
    request are not those of a stored user (a header is missing or empty,
    [x-user-id] is no ObjectId, no user has that id, or the key differs),
    then in both servers, whatever the handler behind [authenticate] and
    whatever store calls fail, the database is left as it was and the
    answer is 401, or 500 when the id is malformed or the lookup failed. *)
Theorem unauthenticated_request_changes_nothing (d : Db) (h : Headers)
    (next : string -> M Response) (plan : list (option string)) :
  credentialsOk d h = false ->
  let koa := run (Koa.authenticate h next) plan d in
  let hono := run (Hono.authenticate h next) plan d in
  snd koa = d /\ (status (fst koa) = 401 \/ status (fst koa) = 500) /\
  snd hono = d /\ (status (fst hono) = 401 \/ status (fst hono) = 500).
Proof.
  intros H. cbv zeta.
  assert (run (Hono.authenticate h next) plan d
          = run (Koa.authenticate h next) plan d) as ->
    by (unfold run; rewrite hono_authenticate_as_koa; reflexivity).
  destruct (koa_authenticate_refuses d h next plan H) as [Hd Hst]. auto.
Qed.

Lemma unauthenticated_request_changes_nothing_witness :
  let h := mkHeaders (Some "bb") (Some Scenario.aliceId) in
  credentialsOk Scenario.H.published h = false /\
  snd (run (Hono.route_deletePackage h "leftpad") [] Scenario.H.published)
  = Scenario.H.published /\
  status (fst (run (Hono.route_deletePackage h "leftpad") []
                 Scenario.H.published)) = 401.
Proof.
  cbv zeta. split; [reflexivity|].
  pose proof (unauthenticated_request_changes_nothing Scenario.H.published
                (mkHeaders (Some "bb") (Some Scenario.aliceId))
                (fun _ => Hono.deletePackage (Some Scenario.aliceId) "leftpad")
                [] eq_refl) as H.
  cbv zeta in H. destruct H as (_ & _ & Hd & _).
  split; [exact Hd|reflexivity].
Defined.

Lemma koa_authenticate_passes (d : Db) (h : Headers)
    (next : string -> M Response) :
  credentialsOk d h = true ->
  exists userId,
    x_user_id h = Some userId /\
    (forall plan, run (Koa.authenticate h next) (None :: plan) d
                  = run (next userId) plan d) /\
    run (Koa.authenticate h next) [] d = run (next userId) [] d.
Proof.
  unfold credentialsOk, Koa.authenticate, Koa.ctx_get, Koa.respond.
  destruct h as [[[|c1 k]|] [[|c2 s]|]]; cbn; try discriminate.
  unfold ObjectId_new. destruct (newObjectId (String c2 s)) as [o|];
    [|discriminate].
  unfold_store. unfold run, bind, query, await, ret. cbn. fold (byUserId o).
  destruct (find (byUserId o) (users d)) as [u|]; [|discriminate].
  intros H. exists (String c2 s). rewrite H. cbn.
  split; [reflexivity|].
  split; [intros plan|]; destruct (next (String c2 s) _) as [[r|e] w'];
    reflexivity.
Qed.

(** X3. With valid credentials the guard costs one lookup and hands the
    request over: when the lookup of the user succeeds, the route behaves
    as the handler behind it, run with the [x-user-id] header of the
    request, in both servers. *)
Theorem authenticated_request_reaches_handler (d : Db) (h : Headers)
    (next : string -> M Response) (plan : list (option string)) :
  credentialsOk d h = true ->
  exists userId,
    x_user_id h = Some userId /\
    run (Koa.authenticate h next) (None :: plan) d = run (next userId) plan d /\
    run (Hono.authenticate h next) (None :: plan) d = run (next userId) plan d /\
    run (Koa.authenticate h next) [] d = run (next userId) [] d /\
    run (Hono.authenticate h next) [] d = run (next userId) [] d.
Proof.
  intros H.
  assert (forall pl, run (Hono.authenticate h next) pl d
                     = run (Koa.authenticate h next) pl d) as HK
    by (intros pl; unfold run; rewrite hono_authenticate_as_koa; reflexivity).
  rewrite !HK.
  destruct (koa_authenticate_passes d h next H) as (userId & Hu & Hplan & Hnil).
  exists userId. rewrite Hplan, Hnil. repeat split. exact Hu.
Qed.

Lemma authenticated_request_reaches_handler_witness :
  credentialsOk Scenario.H.published Scenario.alice = true /\
  exists userId,
    x_user_id Scenario.alice = Some userId /\
    run (Hono.route_deletePackage Scenario.alice "leftpad") []
      Scenario.H.published
    = run (Hono.deletePackage (Some userId) "leftpad") [] Scenario.H.published.
Proof.
  split; [reflexivity|].
  destruct (authenticated_request_reaches_handler Scenario.H.published
              Scenario.alice
              (fun _ => Hono.deletePackage (x_user_id Scenario.alice) "leftpad")
              [] eq_refl) as (userId & Hu & _ & _ & _ & Hh).
  exists userId. split; [exact Hu|].
  injection Hu as <-. exact Hh.
Defined.

(** * Ownership, version uniqueness and validation in the Hono server *)

Lemma hono_authenticate_passes (d : Db) (h : Headers)
    (next : string -> M Response) :
  credentialsOk d h = true ->
  exists userId,
    x_user_id h = Some userId /\
    (forall plan, run (Hono.authenticate h next) (None :: plan) d
                  = run (next userId) plan d) /\
    run (Hono.authenticate h next) [] d = run (next userId) [] d.
Proof.
  intros H.
  assert (forall pl, run (Hono.authenticate h next) pl d
                     = run (Koa.authenticate h next) pl d) as HK
    by (intros pl; unfold run; rewrite hono_authenticate_as_koa; reflexivity).
  destruct (koa_authenticate_passes d h next H) as (userId & Hu & Hplan & Hnil).
  exists userId. split; [exact Hu|].
  split; [intros plan|]; rewrite HK; auto.
Qed.

Section HonoClaims.
Context {P : Platform}.

(** C1, amended.  In the Hono server, for a package that is owned by a
    user: a [deletePackage] by an authenticated user with another id is
    answered 403 and changes nothing, and the owner's is answered 200 and
    removes the package; a publish to the package with a complete form is
    answered 403 for another user and changes nothing, and for the owner it
    is answered 200, storing one blob and one Version, when the package has
    no Version of that version string, and 400 "版本已存在" when it has. *)
Theorem hono_owner_alone_publishes_and_deletes
    (d : Db) (h : Headers) (uid : string) (caller owner : ObjectId)
    (pkg : Package.t) (e : Hono.PublishEnv) (name ver descr fname : string)
    (bytes : list byte) :
  credentialsOk d h = true ->
  x_user_id h = Some uid -> newObjectId uid = Some caller ->
  find (byName name) (packages d) = Some pkg ->
  Package.owner pkg = VObjectId owner ->
  name <> EmptyString -> ver <> EmptyString -> descr <> EmptyString ->
  let publish :=
    run (Hono.route_publish e h (filledForm name ver descr fname bytes)) [] d in
  let delete := run (Hono.route_deletePackage h name) [] d in
  (caller <> owner ->
   publish = (json (Error "无权限发布此包") 403, d) /\
   delete = (json (Error "无权限删除此包") 403, d)) /\
  (caller = owner ->
   delete
   = (json (Message "包删除成功") 200,
      mkDb (users d)
        (deleteFirst (fun p => ObjectId_eqb (Package._id p) (Package._id pkg))
           (packages d))
        (versions d) (fs d) (chunks d)) /\
   match find (byVersion (Package._id pkg) ver) (versions d) with
   | Some _ => publish = (json (Error "版本已存在") 400, d)
   | None =>
       publish
       = (json (Published "包发布成功" (Hono.newVersionId e)) 200,
          mkDb (users d) (packages d)
            (versions d ++
               [Version.mk (Hono.newVersionId e) (Package._id pkg) ver descr
                  None (List.length bytes) (toHexString (Hono.newFileId e))
                  fname (VObjectId caller) (Hono.now e) None])
            (fs d ++ [GridFile.mk (Hono.newFileId e) fname (name, ver) bytes])
            (chunks d ++ chunksOf (Hono.newFileId e) bytes))
   end).
Proof.
  intros Hc Hx Ho Hp Hown N1 N2 N3. cbv zeta.
  unfold Hono.route_publish, Hono.route_deletePackage.
  destruct (hono_authenticate_passes d h
              (fun _ => Hono.publish e (x_user_id h)
                          (filledForm name ver descr fname bytes)) Hc)
    as (u1 & _ & _ & ->).
  destruct (hono_authenticate_passes d h
              (fun _ => Hono.deletePackage (x_user_id h) name) Hc)
    as (u2 & _ & _ & ->).
  rewrite Hx. split.
  - intros Hne. split.
    + apply (hono_publish_forbidden e uid caller name ver descr fname bytes d
               pkg owner); auto.
    + apply (hono_deletePackage_forbidden d uid owner caller name pkg); auto.
  - intros <-. split.
    + apply (hono_deletePackage_owner d uid caller name pkg); auto.
    + destruct (find (byVersion (Package._id pkg) ver) (versions d)) as [v|]
        eqn:Hv.
      * apply (hono_publish_duplicate_version e uid caller name ver descr
                 fname bytes d pkg v); auto.
      * apply (hono_publish_owner e uid caller name ver descr fname bytes d
                 pkg); auto.
Qed.

(** C2, amended.  A publish to a package that already has a Version of
    the same version string fails and stores nothing, in the controllers of
    both servers, whoever calls, whatever else the request holds and
    whichever store calls fail: the answer is no success and the database
    is left as it was.  In the Hono server the answer to the owner of the
    package, for a complete form, is 400 "版本已存在". *)
Theorem publish_of_existing_version_stores_nothing
    (d : Db) (name ver : string) (pkg : Package.t) (v : Version.t) :
  find (byName name) (packages d) = Some pkg ->
  find (byVersion (Package._id pkg) ver) (versions d) = Some v ->
  (forall e userId descr file plan,
     let r := run (Koa.publish e userId (Koa.mkPublishBody name ver descr)
                     file) plan d in
     status (fst r) <> 200 /\ snd r = d) /\
  (forall e userIdHeader descr file plan,
     let r := run (Hono.publish e userIdHeader
                     (Hono.Form (Hono.mkFormData (Some name) (Some ver)
                                   descr file))) plan d in
     status (fst r) <> 200 /\ snd r = d) /\
  (forall e uid o descr fname bytes,
     newObjectId uid = Some o -> Package.owner pkg = VObjectId o ->
     name <> EmptyString -> ver <> EmptyString -> descr <> EmptyString ->
     run (Hono.publish e (Some uid) (filledForm name ver descr fname bytes))
       [] d
     = (json (Error "版本已存在") 400, d)).
Proof.
  intros Hp Hv. split; [|split].
  - intros e userId descr file plan. cbv zeta.
    unfold Koa.publish. unfold_store.
    destruct file as [| |filepath]; try (split; [discriminate|reflexivity]).
    destruct (Koa.readFile e filepath) as [bytes|];
      [|split; [discriminate|reflexivity]].
    unfold byName, byVersion in Hp, Hv.
    destruct plan as [|[e1|] [|[e2|] plan]]; run_handler;
      try (split; [discriminate|reflexivity]);
      rewrite Hp; cbn;
      destruct (equals (Package.owner pkg) userId) as [[|]|]; cbn;
      rewrite ?Hv; split; (discriminate || reflexivity).
  - intros e userIdHeader descr file plan. cbv zeta.
    unfold Hono.publish. unfold_store. unfold ObjectId_new.
    destruct userIdHeader as [[|c uid]|];
      try (split; [discriminate|reflexivity]).
    destruct (newObjectId (String c uid)) as [o|];
      [|split; [discriminate|reflexivity]].
    destruct descr as [descr|]; [|split; [discriminate|reflexivity]].
    run_handler.
    destruct (String.eqb name EmptyString); cbn;
      [split; [discriminate|reflexivity]|].
    destruct (String.eqb ver EmptyString); cbn;
      [split; [discriminate|reflexivity]|].
    destruct (String.eqb descr EmptyString); cbn;
      [split; [discriminate|reflexivity]|].
    destruct file as [[txt|fname bytes]|];
      try (split; [discriminate|reflexivity]).
    unfold byName, byVersion in Hp, Hv.
    destruct plan as [|[e1|] [|[e2|] plan]]; cbn;
      try (split; [discriminate|reflexivity]);
      rewrite Hp; cbn;
      destruct (equals (Package.owner pkg) (VObjectId o)) as [[|]|]; cbn;
      rewrite ?Hv; split; (discriminate || reflexivity).
  - intros e uid o descr fname bytes Ho Hown N1 N2 N3.
    apply (hono_publish_duplicate_version e uid o name ver descr fname bytes
             d pkg v); auto.
Qed.

Lemma hono_publish_incomplete_keeps (I : Db -> Prop) (e : Hono.PublishEnv)
    (userIdHeader : option string) (body : Hono.RequestBody) :
  lacksField body = true ->
  keeps I (Hono.publish e userIdHeader body).
Proof.
  intros Hbad w Hw.
  unfold Hono.publish, Hono.req_formData, Hono.respond, ObjectId_new,
    tryCatch, bind, ret, throw.
  destruct userIdHeader as [[|c uid]|]; cbn; try exact Hw.
  destruct (newObjectId (String c uid)); cbn; try exact Hw.
  destruct body as [message|[name ver descr file]]; cbn; [exact Hw|].
  destruct name as [[|? ?]|], ver as [[|? ?]|], descr as [[|? ?]|];
    cbn; try exact Hw.
  destruct file as [[?|? ?]|]; try discriminate Hbad; cbn; exact Hw.
Qed.

(** C10, amended.  A publish request of the Hono server in which
    [packageName], [version] or [description] is missing or empty, or in
    which [file] is absent or is not a file, stores nothing, whatever the
    headers and whichever store calls fail.  For an authenticated request
    whose body is a form the answer is 400 with the error of the failed
    check; when the body is no form at all, so that every field is missing,
    the answer is 500 with the error of the parser. *)
Theorem hono_publish_rejects_incomplete_request
    (e : Hono.PublishEnv) (h : Headers) (body : Hono.RequestBody) (d : Db) :
  lacksField body = true ->
  (forall plan, snd (run (Hono.route_publish e h body) plan d) = d) /\
  (credentialsOk d h = true ->
   forall plan,
     let r := run (Hono.route_publish e h body) (None :: plan) d in
     fst (run (Hono.route_publish e h body) [] d) = fst r /\
     match body with
     | Hono.Form _ =>
         fst r = json (Error "缺少必要字段") 400 \/
         fst r = json (Error "文件未上传或格式错误") 400
     | Hono.NotAForm message => fst r = json (Error message) 500
     end).
Proof.
  intros Hbad. split.
  - intros plan. apply (keeps_run _ (fun d' => d' = d)); [|reflexivity].
    unfold Hono.route_publish, Hono.authenticate.
    keeps_auto; apply hono_publish_incomplete_keeps, Hbad.
  - intros Hc plan. cbv zeta. unfold Hono.route_publish.
    destruct (hono_authenticate_passes d h
                (fun _ => Hono.publish e (x_user_id h) body) Hc)
      as (uid & Hu & -> & ->).
    unfold credentialsOk in Hc. rewrite Hu in Hc |- *.
    destruct (x_api_key h) as [k|]; [|discriminate Hc].
    destruct uid as [|c uid];
      [rewrite andb_false_r in Hc; discriminate Hc|].
    destruct (newObjectId (String c uid)) as [o|] eqn:Ho;
      [|rewrite andb_false_r in Hc; discriminate Hc].
    unfold Hono.publish. unfold_store. unfold ObjectId_new. rewrite Ho.
    destruct body as [message|[name ver descr file]];
      [split; reflexivity|].
    destruct name as [[|? ?]|], ver as [[|? ?]|], descr as [[|? ?]|];
      try (split; [reflexivity|left; reflexivity]).
    destruct file as [[?|? ?]|]; try discriminate Hbad;
      split; try reflexivity; right; reflexivity.
Qed.
End HonoClaims.

(** alice owns leftpad and publishes 2.0.0, with success; she could
    delete the package. *)
Lemma hono_owner_alone_publishes_and_deletes_witness :
  let d := Scenario.H.published in
  let e := Hono.mkPublishEnv 300 (oid "6") (oid "7") (oid "8") in
  credentialsOk d Scenario.alice = true /\
  map Package.owner (packages d) = [VObjectId (oid "1")] /\
  fst (run (Hono.route_publish e Scenario.alice
              (filledForm "leftpad" "2.0.0" "next" "leftpad-2.tgz" payload))
         [] d)
  = json (Published "包发布成功" (oid "8")) 200 /\
  fst (run (Hono.route_deletePackage Scenario.alice "leftpad") [] d)
  = json (Message "包删除成功") 200.
Proof.
  cbv zeta. split; [reflexivity|]. split; [reflexivity|].
  destruct (hono_owner_alone_publishes_and_deletes Scenario.H.published
              Scenario.alice Scenario.aliceId (oid "1") (oid "1")
              (Package.mk (oid "3") "leftpad" "pads on the left"
                 (VObjectId (oid "1")) 200 200 None)
              (Hono.mkPublishEnv 300 (oid "6") (oid "7") (oid "8"))
              "leftpad" "2.0.0" "next" "leftpad-2.tgz" payload)
    as (_ & Howner); try reflexivity; try discriminate.
  destruct (Howner eq_refl) as (Hdelete & Hpublish).
  lazymatch type of Hpublish with
  | match ?x with _ => _ end => change x with (@None Version.t) in Hpublish
  end.
  cbv iota in Hpublish. rewrite Hpublish, Hdelete. split; reflexivity.
Defined.

(** The owner is not always served, and another user is not always
    answered Forbidden: alice, who owns leftpad, publishes 1.0.0 a second
    time and is refused; bob, who does not, sends a form without a
    description and is told that a field is missing. *)
Lemma ownership_is_not_the_only_check :
  let d := Scenario.H.published in
  map Package.owner (packages d) = [VObjectId (oid "1")] /\
  credentialsOk d Scenario.alice = true /\
  credentialsOk d Scenario.bob = true /\
  Scenario.H.exec (Scenario.H.publishAs Scenario.alice "1.0.0" 300 "6" "7" "8") d
  = (json (Error "版本已存在") 400, d) /\
  Scenario.H.exec
    (Hono.Publish (Hono.mkPublishEnv 300 (oid "6") (oid "7") (oid "8"))
       Scenario.bob
       (Hono.Form (Hono.mkFormData (Some "leftpad") (Some "2.0.0") None
                     (Some (Hono.File "leftpad.tgz" payload))))) d
  = (json (Error "缺少必要字段") 400, d).
Proof. cbv zeta. repeat split. Qed.

(** leftpad has the Version 1.0.0 in the Hono server and in the store
    that the Koa controller made. *)
Lemma publish_of_existing_version_stores_nothing_witness :
  let e := Hono.mkPublishEnv 300 (oid "6") (oid "7") (oid "8") in
  let again := filledForm "leftpad" "1.0.0" "again" "leftpad.tgz" payload in
  (exists v, find (byVersion (oid "3") "1.0.0")
               (versions Scenario.H.published) = Some v) /\
  run (Hono.publish e (Some Scenario.aliceId) again) [] Scenario.H.published
  = (json (Error "版本已存在") 400, Scenario.H.published) /\
  (forall plan,
     status (fst (run (Hono.publish e (Some Scenario.bobId) again) plan
                    Scenario.H.published)) <> 200 /\
     snd (run (Hono.publish e (Some Scenario.bobId) again) plan
            Scenario.H.published) = Scenario.H.published).
Proof.
  cbv zeta. split; [eexists; reflexivity|].
  destruct (publish_of_existing_version_stores_nothing (P := samplePlatform)
              Scenario.H.published "leftpad" "1.0.0"
              (Package.mk (oid "3") "leftpad" "pads on the left"
                 (VObjectId (oid "1")) 200 200 None)
              (Version.mk (oid "5") (oid "3") "1.0.0" "pads on the left" None
                 10 "000000000000000000000004" "leftpad.tgz"
                 (VObjectId (oid "1")) 200 None)
              eq_refl eq_refl) as (_ & Hany & Howner).
  split.
  - apply (Howner (Hono.mkPublishEnv 300 (oid "6") (oid "7") (oid "8"))
             Scenario.aliceId (oid "1") "again" "leftpad.tgz" payload);
      try reflexivity; discriminate.
  - intros plan.
    apply (Hany (Hono.mkPublishEnv 300 (oid "6") (oid "7") (oid "8"))
             (Some Scenario.bobId) (Some "again")
             (Some (Hono.File "leftpad.tgz" payload)) plan).
Defined.

(** The duplicate is not what every caller is told: bob publishes
    leftpad 1.0.0, which exists, and is answered Forbidden. *)
Lemma duplicate_version_is_not_reported_to_others :
  let d := Scenario.H.published in
  (exists v, find (byVersion (oid "3") "1.0.0") (versions d) = Some v) /\
  credentialsOk d Scenario.bob = true /\
  Scenario.H.exec (Scenario.H.publishAs Scenario.bob "1.0.0" 300 "6" "7" "8") d
  = (json (Error "无权限发布此包") 403, d).
Proof. cbv zeta. split; [eexists; reflexivity|]. split; reflexivity. Qed.

(** alice sends a form without a description. *)
Lemma hono_publish_rejects_incomplete_request_witness :
  let body := Hono.Form (Hono.mkFormData (Some "leftpad") (Some "2.0.0") None
                           (Some (Hono.File "leftpad.tgz" payload))) in
  let route := Hono.route_publish
                 (Hono.mkPublishEnv 300 (oid "6") (oid "7") (oid "8"))
                 Scenario.alice body in
  lacksField body = true /\
  credentialsOk Scenario.H.published Scenario.alice = true /\
  snd (run route [None; Some "connection lost"] Scenario.H.published)
  = Scenario.H.published /\
  fst (run route [] Scenario.H.published) = json (Error "缺少必要字段") 400.
Proof.
  cbv zeta. split; [reflexivity|]. split; [reflexivity|].
  destruct (hono_publish_rejects_incomplete_request
              (Hono.mkPublishEnv 300 (oid "6") (oid "7") (oid "8"))
              Scenario.alice
              (Hono.Form (Hono.mkFormData (Some "leftpad") (Some "2.0.0") None
                            (Some (Hono.File "leftpad.tgz" payload))))
              Scenario.H.published eq_refl) as (Hkeep & _).
  split; [apply Hkeep|reflexivity].
Defined.

(** A request whose body is no form has every field missing: alice
    sends JSON to the publish route and is answered 500, not 400. *)
Lemma hono_publish_without_form_is_answered_500 :
  let d := Scenario.H.published in
  lacksField (Hono.NotAForm "Failed to parse body as FormData.") = true /\
  credentialsOk d Scenario.alice = true /\
  Scenario.H.exec
    (Hono.Publish (Hono.mkPublishEnv 300 (oid "6") (oid "7") (oid "8"))
       Scenario.alice (Hono.NotAForm "Failed to parse body as FormData.")) d
  = (json (Error "Failed to parse body as FormData.") 500, d).
Proof. cbv zeta. repeat split. Qed.

(** * Accounts, from registration to removal *)

Lemma updateFirst_app_none {A} (f : A -> bool) (g : A -> A) (l l' : list A) :
  find f l = None -> updateFirst f g (l ++ l') = (l ++ updateFirst f g l')%list.
Proof.
  induction l as [|x r IH]; cbn; [reflexivity|].
  destruct (f x); [discriminate|]. intros H. rewrite (IH H). reflexivity.
Qed.

Lemma toHex_not_empty (bytes : list byte) :
  bytes <> [] -> String.eqb (toHex bytes) EmptyString = false.
Proof. destruct bytes as [|b r]; [congruence|reflexivity]. Qed.

Lemma isObjectId_not_empty (o : ObjectId) :
  isObjectId o = true -> String.eqb (toHexString o) EmptyString = false.
Proof.
  intros H. apply isObjectId_new in H. destruct (toHexString o); [|reflexivity].
  discriminate H.
Qed.

(** The credentials of a user who is the first of that id in the store. *)
Lemma credentialsOk_of_user (d : Db) (u : User.t) :
  isObjectId (User._id u) = true ->
  String.eqb (User.apiKey u) EmptyString = false ->
  find (byUserId (User._id u)) (users d) = Some u ->
  credentialsOk d
    (mkHeaders (Some (User.apiKey u)) (Some (toHexString (User._id u)))) = true.
Proof.
  intros Hid Hkey Hfind. unfold credentialsOk. cbn.
  rewrite Hkey, (isObjectId_not_empty _ Hid), (isObjectId_new _ Hid), Hfind.
  cbn. apply String.eqb_refl.
Qed.

Section AccountLifeCycle.
Context {P : Platform}.

Lemma hono_register_run (e : Hono.RegisterEnv) (username password : string)
    (d : Db) :
  username <> EmptyString -> password <> EmptyString ->
  run (Hono.register e (Some username) (Some password)) [] d
  = (json (Credentials None (Hono.newUserId e)
             (generateApiKey (Hono.entropy e))) 201,
     mkDb (users d ++
             [User.mk (Hono.newUserId e) username
                (argon2_hash password (Hono.salt e))
                (generateApiKey (Hono.entropy e)) None None])
          (packages d) (versions d) (fs d) (chunks d)).
Proof.
  intros N1 N2. unfold Hono.register. unfold_store.
  apply String.eqb_neq in N1, N2. run_handler. rewrite N1, N2. reflexivity.
Qed.

Lemma hono_login_success_run (username password : string) (d : Db)
    (user : User.t) :
  username <> EmptyString -> password <> EmptyString ->
  find (byUsername username) (users d) = Some user ->
  argon2_verify (User.password user) password = true ->
  run (Hono.login (Some username) (Some password)) [] d
  = (json (Credentials None (User._id user) (User.apiKey user)) 200, d).
Proof.
  intros N1 N2 Hu Hpw. unfold Hono.login. unfold_store.
  apply String.eqb_neq in N1, N2. run_handler. rewrite N1, N2. cbn.
  fold (byUsername username). rewrite Hu. cbn. rewrite Hpw. reflexivity.
Qed.

(** X4. The id and key that [register] hands out are accepted by
    [authenticate]: after a registration under a new user name, with a
    well-formed new id that no stored user has and a key drawn from at
    least one random byte, the headers made of the returned id and key are
    valid credentials in the resulting store.  Both servers. *)
Theorem registered_credentials_authenticate
    (eK : Koa.RegisterEnv) (eH : Hono.RegisterEnv)
    (username password : string) (d : Db) :
  username <> EmptyString -> password <> EmptyString ->
  find (byUsername username) (users d) = None ->
  isObjectId (Koa.newUserId eK) = true ->
  isObjectId (Hono.newUserId eH) = true ->
  find (byUserId (Koa.newUserId eK)) (users d) = None ->
  find (byUserId (Hono.newUserId eH)) (users d) = None ->
  Koa.entropy eK <> [] -> Hono.entropy eH <> [] ->
  let koa := run (Koa.register eK username password) [] d in
  let hono := run (Hono.register eH (Some username) (Some password)) [] d in
  (exists userId apiKey,
     fst koa = json (Credentials None userId apiKey) 201 /\
     credentialsOk (snd koa)
       (mkHeaders (Some apiKey) (Some (toHexString userId))) = true) /\
  (exists userId apiKey,
     fst hono = json (Credentials None userId apiKey) 201 /\
     credentialsOk (snd hono)
       (mkHeaders (Some apiKey) (Some (toHexString userId))) = true).
Proof.
  intros N1 N2 Hname HidK HidH HfreshK HfreshH HeK HeH. cbv zeta.
  rewrite (koa_register_fresh eK username password d Hname).
  rewrite (hono_register_run eH username password d N1 N2).
  split; eexists; eexists; (split; [reflexivity|]); cbn [snd].
  - apply (credentialsOk_of_user _
             (User.mk (Koa.newUserId eK) username
                (bcrypt_hash password 10 (Koa.salt eK))
                (generateApiKey (Koa.entropy eK))
                (Some (Koa.registeredAt eK)) (Some (Koa.registeredAt eK))));
      cbn; [exact HidK|apply toHex_not_empty, HeK|].
    rewrite (find_app_none _ _ _ HfreshK). cbn. unfold byUserId. cbn.
    rewrite ObjectId_eqb_refl. reflexivity.
  - apply (credentialsOk_of_user _
             (User.mk (Hono.newUserId eH) username
                (argon2_hash password (Hono.salt eH))
                (generateApiKey (Hono.entropy eH)) None None));
      cbn; [exact HidH|apply toHex_not_empty, HeH|].
    rewrite (find_app_none _ _ _ HfreshH). cbn. unfold byUserId. cbn.
    rewrite ObjectId_eqb_refl. reflexivity.
Qed.

(** X5. A user who has just registered can log in: after a registration
    under a new user name, a login with the same name and password answers
    200 with the id and key that the registration returned, provided the
    password library verifies the hash it has just made.  In the Koa
    server the login also sets [lastLogin] of that user, when the new id is
    not the id of another user. *)
Theorem registered_user_logs_in
    (eK : Koa.RegisterEnv) (eH : Hono.RegisterEnv)
    (username password : string) (at_ : Z) (d : Db) :
  username <> EmptyString -> password <> EmptyString ->
  find (byUsername username) (users d) = None ->
  find (byUserId (Koa.newUserId eK)) (users d) = None ->
  bcrypt_compare password (bcrypt_hash password 10 (Koa.salt eK)) = true ->
  argon2_verify (argon2_hash password (Hono.salt eH)) password = true ->
  let dK := snd (run (Koa.register eK username password) [] d) in
  let dH := snd (run (Hono.register eH (Some username) (Some password)) [] d) in
  let koa := run (Koa.login at_ username password) [] dK in
  fst koa = json (Credentials (Some "登录成功") (Koa.newUserId eK)
                    (generateApiKey (Koa.entropy eK))) 200 /\
  (exists u, find (byUsername username) (users (snd koa)) = Some u /\
             User.lastLogin u = Some at_ /\
             User.apiKey u = generateApiKey (Koa.entropy eK)) /\
  run (Hono.login (Some username) (Some password)) [] dH
  = (json (Credentials None (Hono.newUserId eH)
             (generateApiKey (Hono.entropy eH))) 200, dH).
Proof.
  intros N1 N2 Hname Hfresh HcK HcH. cbv zeta.
  rewrite (koa_register_fresh eK username password d Hname).
  rewrite (hono_register_run eH username password d N1 N2). cbn [snd].
  set (uK := User.mk (Koa.newUserId eK) username
               (bcrypt_hash password 10 (Koa.salt eK))
               (generateApiKey (Koa.entropy eK))
               (Some (Koa.registeredAt eK)) (Some (Koa.registeredAt eK))).
  set (uH := User.mk (Hono.newUserId eH) username
               (argon2_hash password (Hono.salt eH))
               (generateApiKey (Hono.entropy eH)) None None).
  assert (byUsername username uK = true) as HuK
    by (unfold byUsername; cbn; apply String.eqb_refl).
  assert (byUsername username uH = true) as HuH
    by (unfold byUsername; cbn; apply String.eqb_refl).
  assert (find (byUsername username) (users d ++ [uK]) = Some uK) as HfK
    by (rewrite (find_app_none _ _ _ Hname); cbn [find]; rewrite HuK;
        reflexivity).
  assert (find (byUsername username) (users d ++ [uH]) = Some uH) as HfH
    by (rewrite (find_app_none _ _ _ Hname); cbn [find]; rewrite HuH;
        reflexivity).
  rewrite (koa_login_success at_ username password _ uK);
    [|exact HfK|exact HcK].
  split; [reflexivity|]. split.
  - exists (User.set_lastLogin at_ uK). cbn [snd users fst].
    fold (byUserId (User._id uK)).
    rewrite (updateFirst_app_none _ _ _ _ Hfresh). cbn [updateFirst].
    assert (byUserId (Koa.newUserId eK) uK = true) as ->
      by (unfold byUserId; apply ObjectId_eqb_refl).
    rewrite (find_app_none _ _ _ Hname). cbn [find].
    assert (byUsername username (User.set_lastLogin at_ uK) = true) as ->
      by (unfold byUsername; cbn; apply String.eqb_refl).
    repeat split.
  - apply (hono_login_success_run username password _ uH N1 N2);
      [exact HfH|exact HcH].
Qed.
End AccountLifeCycle.

Lemma registered_credentials_authenticate_witness :
  let eK := Koa.mkRegisterEnv 300 (oid "9") [] [xcc] in
  let eH := Hono.mkRegisterEnv (oid "9") [] [xcc] in
  let koa := run (Koa.register (P := samplePlatform) eK "carol" "pw789") []
               Scenario.K.registered in
  let hono := run (Hono.register (P := samplePlatform) eH
                     (Some "carol") (Some "pw789")) [] Scenario.K.registered in
  (exists userId apiKey,
     fst koa = json (Credentials None userId apiKey) 201 /\
     credentialsOk (snd koa)
       (mkHeaders (Some apiKey) (Some (toHexString userId))) = true) /\
  (exists userId apiKey,
     fst hono = json (Credentials None userId apiKey) 201 /\
     credentialsOk (snd hono)
       (mkHeaders (Some apiKey) (Some (toHexString userId))) = true).
Proof.
  apply (registered_credentials_authenticate (P := samplePlatform)
           (Koa.mkRegisterEnv 300 (oid "9") [] [xcc])
           (Hono.mkRegisterEnv (oid "9") [] [xcc])
           "carol" "pw789" Scenario.K.registered);
    try discriminate; reflexivity.
Defined.

Lemma registered_user_logs_in_witness :
  let eK := Koa.mkRegisterEnv 300 (oid "9") [] [xcc] in
  let eH := Hono.mkRegisterEnv (oid "9") [] [xcc] in
  let dK := snd (run (Koa.register (P := samplePlatform) eK "carol" "pw789") []
                   Scenario.K.registered) in
  let dH := snd (run (Hono.register (P := samplePlatform) eH
                        (Some "carol") (Some "pw789")) []
                   Scenario.K.registered) in
  let koa := run (Koa.login (P := samplePlatform) 400 "carol" "pw789") [] dK in
  fst koa = json (Credentials (Some "登录成功") (oid "9") "cc") 200 /\
  (exists u, find (byUsername "carol") (users (snd koa)) = Some u /\
             User.lastLogin u = Some 400%Z /\ User.apiKey u = "cc") /\
  run (Hono.login (P := samplePlatform) (Some "carol") (Some "pw789")) [] dH
  = (json (Credentials None (oid "9") "cc") 200, dH).
Proof.
  apply (registered_user_logs_in (P := samplePlatform)
           (Koa.mkRegisterEnv 300 (oid "9") [] [xcc])
           (Hono.mkRegisterEnv (oid "9") [] [xcc])
           "carol" "pw789" 400 Scenario.K.registered);
    try discriminate; reflexivity.
Defined.

Lemma find_byUserId_notin (uid : ObjectId) (l : list User.t) :
  ~ In uid (map User._id l) -> find (byUserId uid) l = None.
Proof.
  induction l as [|x r IH]; cbn; [reflexivity|]. intros H.
  unfold byUserId at 1. destruct (ObjectId_eqb (User._id x) uid) eqn:E.
  - apply ObjectId_eqb_eq in E. exfalso. apply H. left. exact E.
  - apply IH. intros Hin. apply H. right. exact Hin.
Qed.

Lemma find_deleteFirst_NoDup (uid : ObjectId) (l : list User.t) :
  NoDup (map User._id l) ->
  find (byUserId uid) (deleteFirst (byUserId uid) l) = None.
Proof.
  induction l as [|x r IH]; cbn; [reflexivity|]. intros H.
  inversion H as [|? ? Hnotin Hr]; subst.
  destruct (byUserId uid x) eqn:E.
  - apply find_byUserId_notin. unfold byUserId in E.
    apply ObjectId_eqb_eq in E. rewrite <- E. exact Hnotin.
  - cbn. rewrite E. apply IH, Hr.
Qed.

Lemma koa_removeAccount_run (s : string) (uid : ObjectId) (d : Db) :
  newObjectId s = Some uid ->
  run (Koa.removeAccount (Some s)) [] d
  = (json (Message "账号已删除") 200,
     mkDb (deleteFirst (byUserId uid) (users d))
          (deleteAll (ownedBy uid) (packages d)) (versions d) (fs d) (chunks d)).
Proof.
  intros Hs. unfold Koa.removeAccount. destruct s as [|c s]; [discriminate Hs|].
  unfold_store. unfold ObjectId_new. rewrite Hs. reflexivity.
Qed.

Lemma hono_removeAccount_run (s : string) (uid : ObjectId) (d : Db) :
  newObjectId s = Some uid ->
  run (Hono.removeAccount (Some s)) [] d
  = (json (Message "用户删除成功") 200,
     mkDb (deleteFirst (byUserId uid) (users d))
          (packages d) (versions d) (fs d) (chunks d)).
Proof.
  intros Hs. unfold Hono.removeAccount. destruct s as [|c s]; [discriminate Hs|].
  unfold_store. unfold ObjectId_new. rewrite Hs. reflexivity.
Qed.

(** X6. A removed account is locked out: when the ids of the stored users
    are pairwise different, then after [removeAccount] has succeeded for a
    user id, no headers whose [x-user-id] denotes that id, in any spelling
    and with any key, are valid credentials any more.  Both servers. *)
Theorem removed_account_cannot_authenticate
    (s s' : string) (uid : ObjectId) (d : Db) (h : Headers) :
  newObjectId s = Some uid ->
  NoDup (map User._id (users d)) ->
  x_user_id h = Some s' -> newObjectId s' = Some uid ->
  credentialsOk (snd (run (Koa.removeAccount (Some s)) [] d)) h = false /\
  credentialsOk (snd (run (Hono.removeAccount (Some s)) [] d)) h = false.
Proof.
  intros Hs Hnodup Hh Hs'.
  rewrite (koa_removeAccount_run s uid d Hs), (hono_removeAccount_run s uid d Hs).
  unfold credentialsOk. cbn [snd users]. rewrite Hh, Hs'.
  rewrite (find_deleteFirst_NoDup uid _ Hnodup).
  destruct (x_api_key h) as [k|]; [|split; reflexivity].
  rewrite !andb_false_r. split; reflexivity.
Qed.

Lemma removed_account_cannot_authenticate_witness :
  NoDup (map User._id (users Scenario.K.published)) /\
  credentialsOk Scenario.K.published Scenario.alice = true /\
  credentialsOk
    (snd (run (Koa.removeAccount (Some Scenario.aliceId)) []
            Scenario.K.published)) Scenario.alice = false /\
  credentialsOk
    (snd (run (Hono.removeAccount (Some Scenario.aliceId)) []
            Scenario.K.published)) Scenario.alice = false.
Proof.
  assert (NoDup (map User._id (users Scenario.K.published))) as Hnodup.
  { cbn. repeat constructor; cbn; intuition discriminate. }
  split; [exact Hnodup|]. split; [reflexivity|].
  apply (removed_account_cannot_authenticate Scenario.aliceId Scenario.aliceId
           (oid "1") Scenario.K.published Scenario.alice);
    [reflexivity|exact Hnodup|reflexivity|reflexivity].
Defined.

(** * Query endpoints *)

Section Queries.
Context {P : Platform}.

Lemma koa_search_rejected_call (q : Koa.QueryValue) (e : string)
    (plan : list (option string)) (d : Db) :
  run (Koa.searchPackages q) (Some e :: plan) d = (json (Error e) 500, d).
Proof.
  unfold Koa.searchPackages, packages_find_regex, rejected.
  destruct q as [|s|l]; try reflexivity.
  destruct (regex s "i"); reflexivity.
Qed.

(** X7. Search hands the query to the store as a regular expression.
    On a query that is given once the two servers do the same, under every
    fault plan, and search never writes: a text that the store does not
    take as a regular expression is answered 500 with the message of the
    store, any other text 200 with the stored packages whose name it
    matches, in the order of the store.  The servers part on a request
    without a query: the Hono server searches with the empty pattern, the
    Koa server hands [undefined] (or the array of a repeated parameter) to
    the store and answers 500. *)
Theorem search_lists_matching_packages (d : Db) (q : string)
    (plan : list (option string)) :
  run (Hono.searchPackages (Some q)) plan d
  = run (Koa.searchPackages (Koa.One q)) plan d /\
  run (Hono.searchPackages None) plan d
  = run (Koa.searchPackages (Koa.One EmptyString)) plan d /\
  snd (run (Koa.searchPackages (Koa.One q)) plan d) = d /\
  match regex q "i" with
  | inl message =>
      run (Koa.searchPackages (Koa.One q)) [] d = (json (Error message) 500, d)
  | inr matches =>
      run (Koa.searchPackages (Koa.One q)) [] d
      = (json (PackageList
                 (filter (fun p => matches (Package.name p)) (packages d)))
           200, d)
  end /\
  run (Koa.searchPackages Koa.Absent) [] d
  = (json (Error "$regex has to be a string") 500, d) /\
  forall l, run (Koa.searchPackages (Koa.Many l)) [] d
            = (json (Error "$regex has to be a string") 500, d).
Proof.
  split; [reflexivity|]. split; [reflexivity|]. split.
  { apply (keeps_run _ (fun d' => d' = d)); [|reflexivity].
    unfold Koa.searchPackages. keeps_auto. }
  split; [|split; [reflexivity|intros l; reflexivity]].
  unfold Koa.searchPackages, packages_find_regex, rejected.
  destruct (regex q "i"); reflexivity.
Qed.

(** X8. The list of versions and the latest version of the Hono server
    agree: for an unknown package both are 404; otherwise the list is the
    Versions of the package, the latest version is the "暂无版本" message
    exactly when the list is empty, and else it is a member of the list
    that no member was published after. *)
Theorem latest_is_among_listed_versions (d : Db) (name : string) :
  match find (byName name) (packages d) with
  | None =>
      run (Hono.getPackageVersions name) [] d
      = (json (Error "包不存在") 404, d) /\
      run (Hono.getLatestVersion name) [] d
      = (json (Error "包不存在") 404, d)
  | Some pkg =>
      run (Hono.getPackageVersions name) [] d
      = (json (VersionList (versionsOf d pkg)) 200, d) /\
      match versionsOf d pkg with
      | [] => fst (run (Hono.getLatestVersion name) [] d)
              = json (Message "暂无版本") 200
      | _ :: _ =>
          exists v,
            fst (run (Hono.getLatestVersion name) [] d)
            = json (VersionDoc v) 200 /\
            In v (versionsOf d pkg) /\
            forall x, In x (versionsOf d pkg) ->
                      (Version.publishedAt x <= Version.publishedAt v)%Z
      end
  end.
Proof.
  rewrite hono_getLatestVersion_run, koa_getLatestVersion_run.
  unfold Hono.getPackageVersions. unfold_store. run_handler.
  fold (byName name).
  destruct (find (byName name) (packages d)) as [pkg|]; cbn;
    [|split; reflexivity].
  fold (versionsOf d pkg). split; [reflexivity|].
  pose proof (latest_of_sorted d pkg) as H.
  destruct (versionsOf d pkg) as [|v0 r] eqn:E.
  - reflexivity.
  - change (match sortDesc (v0 :: r) with [] => [] | a :: _ => [a] end)
      with (firstn 1 (sortDesc (v0 :: r))).
    inversion H as [Hnil Heq|v Hv Hmax Heq];
      [rewrite E in Hnil; discriminate Hnil|].
    rewrite E in Hv, Hmax.
    exists v. split; [symmetry; exact Heq|]. split; assumption.
Qed.

(** X9. A failure of the store is reported, not hidden: when the first
    store call of a handler rejects with a message, the handler answers
    500 with that message and the database is left as it was.  This holds
    for the query endpoints of both servers and for the Koa register,
    login and deletePackage; the query endpoints never write, whatever
    calls fail. *)
Theorem store_failure_is_answered_500 (d : Db) (e : string)
    (plan : list (option string)) (q : Koa.QueryValue)
    (name ver username password : string)
    (at_ : Z) (env : Koa.RegisterEnv) (userId : value) :
  let failed := (json (Error e) 500, d) in
  run (Koa.searchPackages q) (Some e :: plan) d = failed /\
  run (Koa.getLatestVersion name) (Some e :: plan) d = failed /\
  run (Hono.getLatestVersion name) (Some e :: plan) d = failed /\
  run (Hono.getPackageVersions name) (Some e :: plan) d = failed /\
  run (Koa.download name ver) (Some e :: plan) d = failed /\
  run (Hono.download name ver) (Some e :: plan) d = failed /\
  run (Koa.register env username password) (Some e :: plan) d = failed /\
  run (Koa.login at_ username password) (Some e :: plan) d = failed /\
  run (Koa.deletePackage userId name) (Some e :: plan) d = failed /\
  snd (run (Koa.searchPackages q) plan d) = d /\
  snd (run (Koa.getLatestVersion name) plan d) = d /\
  snd (run (Hono.getPackageVersions name) plan d) = d.
Proof.
  cbv zeta. split; [apply koa_search_rejected_call|].
  repeat (split; [reflexivity|]).
  split; [|split];
    apply (keeps_run _ (fun d' => d' = d)); try reflexivity;
    unfold Koa.searchPackages, Koa.getLatestVersion, Hono.getPackageVersions;
    keeps_auto.
Qed.
End Queries.

(** * Deleting a package *)

Lemma find_all_false {A} (f : A -> bool) (l : list A) :
  (forall x, In x l -> f x = false) -> find f l = None.
Proof.
  induction l as [|x r IH]; cbn; [reflexivity|]. intros H.
  rewrite (H x (or_introl eq_refl)). apply IH. intros y Hy. apply H. right; exact Hy.
Qed.

Lemma deleteFirst_length {A} (f : A -> bool) (l : list A) (x : A) :
  find f l = Some x -> S (List.length (deleteFirst f l)) = List.length l.
Proof.
  induction l as [|y r IH]; cbn; [discriminate|].
  destruct (f y); [reflexivity|]. intros H. cbn. rewrite (IH H). reflexivity.
Qed.

(** Deleting by the id of the only package of a name frees the name. *)
Lemma find_byName_after_delete (name : string) (pkg : Package.t)
    (l : list Package.t) :
  In pkg l -> Package.name pkg = name ->
  NoDup (map Package._id l) -> NoDup (map Package.name l) ->
  find (byName name)
    (deleteFirst (fun p => ObjectId_eqb (Package._id p) (Package._id pkg)) l)
  = None.
Proof.
  intros Hin Hn. induction l as [|x r IH]; cbn; [reflexivity|].
  intros Hids Hnames.
  inversion Hids as [|? ? HidNotin Hids']; subst.
  inversion Hnames as [|? ? HnameNotin Hnames']; subst.
  destruct (ObjectId_eqb (Package._id x) (Package._id pkg)) eqn:E.
  - apply ObjectId_eqb_eq in E.
    assert (x = pkg) as ->.
    { destruct Hin as [H|H]; [exact H|]. exfalso. apply HidNotin.
      rewrite E. apply in_map, H. }
    apply find_all_false. intros p Hp. unfold byName.
    apply String.eqb_neq. intros Hpn. apply HnameNotin.
    rewrite <- Hpn. apply in_map, Hp.
  - assert (In pkg r) as Hr.
    { destruct Hin as [H|H]; [|exact H]. subst x.
      rewrite ObjectId_eqb_refl in E. discriminate. }
    cbn. unfold byName at 1.
    destruct (String.eqb (Package.name x) (Package.name pkg)) eqn:En.
    + apply String.eqb_eq in En. exfalso. apply HnameNotin.
      rewrite En. apply in_map, Hr.
    + apply IH; assumption.
Qed.

Section DeletePackage.
Context {P : Platform}.

(** X10. A deleted package is gone and its name is free, but its Versions
    and blobs stay: when package ids and package names are unique in the
    store and [deletePackage] answers 200, in either server, then exactly
    one Package document is removed, no package of that name is left, so
    that latestVersion and download of the name answer 404 "包不存在", and
    the users, the Version documents and the blobs are all as before. *)
Theorem deleted_package_is_gone_versions_stay
    (d d' : Db) (name : string) (userId : value)
    (userIdHeader : option string) (r : Response) :
  NoDup (map Package._id (packages d)) ->
  NoDup (map Package.name (packages d)) ->
  run (Koa.deletePackage userId name) [] d = (r, d') \/
  run (Hono.deletePackage userIdHeader name) [] d = (r, d') ->
  status r = 200 ->
  users d' = users d /\ versions d' = versions d /\ fs d' = fs d /\
  S (List.length (packages d')) = List.length (packages d) /\
  find (byName name) (packages d') = None /\
  (forall ver, fst (run (Hono.download name ver) [] d')
               = json (Error "包不存在") 404) /\
  fst (run (Hono.getLatestVersion name) [] d') = json (Error "包不存在") 404.
Proof.
  intros Hids Hnames Hrun Hst.
  assert (exists pkg, find (byName name) (packages d) = Some pkg /\
            d' = mkDb (users d)
                   (deleteFirst
                      (fun p => ObjectId_eqb (Package._id p) (Package._id pkg))
                      (packages d))
                   (versions d) (fs d) (chunks d)) as (pkg & Hp & ->).
  { destruct Hrun as [Hrun|Hrun]; revert Hrun.
    - unfold Koa.deletePackage. unfold_store. run_handler.
      fold (byName name).
      destruct (find (byName name) (packages d)) as [pkg|]; cbn;
        [|intros H; injection H as <- <-; discriminate Hst].
      destruct (strictNotEqual (Package.owner pkg) userId); cbn;
        intros H; injection H as <- <-; [discriminate Hst|].
      exists pkg. split; reflexivity.
    - unfold Hono.deletePackage.
      destruct userIdHeader as [[|c uid]|];
        try (run_handler; intros H; injection H as <- <-; discriminate Hst).
      unfold_store. unfold ObjectId_new.
      destruct (newObjectId (String c uid)) as [o|]; run_handler;
        [|intros H; injection H as <- <-; discriminate Hst].
      fold (byName name).
      destruct (find (byName name) (packages d)) as [pkg|]; cbn;
        [|intros H; injection H as <- <-; discriminate Hst].
      destruct (equals (Package.owner pkg) (VObjectId o)) as [[|]|]; cbn;
        intros H; injection H as <- <-; try discriminate Hst.
      exists pkg. split; reflexivity. }
  assert (find (byName name) (packages (mkDb (users d)
            (deleteFirst
               (fun p => ObjectId_eqb (Package._id p) (Package._id pkg))
               (packages d)) (versions d) (fs d) (chunks d))) = None) as Hgone.
  { cbn. apply find_some in Hp as [Hin Hn]. unfold byName in Hn.
    apply String.eqb_eq in Hn.
    apply find_byName_after_delete; assumption. }
  split; [reflexivity|]. split; [reflexivity|]. split; [reflexivity|].
  split.
  { cbn. apply find_some in Hp as [Hin _].
    destruct (find (fun p => ObjectId_eqb (Package._id p) (Package._id pkg))
                (packages d)) as [q|] eqn:Eq.
    - apply (deleteFirst_length _ _ _ Eq).
    - exfalso. apply (find_none _ _ Eq) in Hin.
      rewrite ObjectId_eqb_refl in Hin. discriminate. }
  split; [exact Hgone|]. split.
  - intros ver. unfold Hono.download. unfold_store. run_handler.
    fold (byName name). cbn in Hgone. rewrite Hgone. reflexivity.
  - rewrite hono_getLatestVersion_run, koa_getLatestVersion_run.
    cbn [fst]. rewrite Hgone. reflexivity.
Qed.
End DeletePackage.

Lemma deleted_package_is_gone_versions_stay_witness :
  let d := Scenario.H.published in
  let d' := snd (run (Hono.deletePackage (Some Scenario.aliceId) "leftpad") [] d) in
  List.length (packages d) = 1 /\ List.length (packages d') = 0 /\
  List.length (versions d') = 1 /\ List.length (fs d') = 1 /\
  fst (run (Hono.getLatestVersion "leftpad") [] d')
  = json (Error "包不存在") 404.
Proof.
  cbv zeta.
  destruct (deleted_package_is_gone_versions_stay (P := samplePlatform)
              Scenario.H.published
              (snd (run (Hono.deletePackage (Some Scenario.aliceId) "leftpad")
                      [] Scenario.H.published))
              "leftpad" (VString Scenario.aliceId) (Some Scenario.aliceId)
              (json (Message "包删除成功") 200))
    as (_ & Hv & Hb & Hlen & _ & _ & Hlatest).
  - cbn. repeat constructor; cbn; intuition discriminate.
  - cbn. repeat constructor; cbn; intuition discriminate.
  - right. reflexivity.
  - reflexivity.
  - rewrite Hv, Hb. split; [reflexivity|].
    split; [apply eq_add_S; exact Hlen|].
    split; [reflexivity|]. split; [reflexivity|exact Hlatest].
Defined.

(** * Publishing to the Hono server *)

Section HonoPublish.
Context {P : Platform}.

Lemma hono_publish_new_package e uid o name ver descr fname bytes d :
  newObjectId uid = Some o ->
  name <> EmptyString -> ver <> EmptyString -> descr <> EmptyString ->
  find (byName name) (packages d) = None ->
  find (byVersion (Hono.newPackageId e) ver) (versions d) = None ->
  run (Hono.publish e (Some uid) (filledForm name ver descr fname bytes)) [] d
  = (json (Published "包发布成功" (Hono.newVersionId e)) 200,
     mkDb (users d)
       (packages d ++
          [Package.mk (Hono.newPackageId e) name descr (VObjectId o)
             (Hono.now e) (Hono.now e) None])
       (versions d ++
          [Version.mk (Hono.newVersionId e) (Hono.newPackageId e) ver descr
             None (List.length bytes) (toHexString (Hono.newFileId e)) fname
             (VObjectId o) (Hono.now e) None])
       (fs d ++ [GridFile.mk (Hono.newFileId e) fname (name, ver) bytes])
       (chunks d ++ chunksOf (Hono.newFileId e) bytes)).
Proof.
  intros Ho N1 N2 N3 Hp Hv. unfold Hono.publish, filledForm.
  destruct uid; [discriminate Ho|].
  unfold_store. unfold ObjectId_new. rewrite Ho.
  apply String.eqb_neq in N1, N2, N3. run_handler. rewrite N1, N2, N3. cbn.
  fold (byName name). rewrite Hp. cbn.
  fold (byVersion (Hono.newPackageId e) ver). rewrite Hv.
  rewrite saveFileToGridFS_run. reflexivity.
Qed.

Lemma hono_download_run (d : Db) (name ver : string) (pkg : Package.t)
    (v : Version.t) (fileId : ObjectId) (bytes : list byte) :
  find (byName name) (packages d) = Some pkg ->
  find (byVersion (Package._id pkg) ver) (versions d) = Some v ->
  newObjectId (Version.filePath v) = Some fileId ->
  streamContents d fileId = Some bytes ->
  c_header "Content-Disposition" (contentDisposition (Version.filename v))
  = None ->
  run (Hono.download name ver) [] d
  = (mkResponse 200 (Buffer bytes) (downloadHeaders v), d).
Proof.
  intros Hp Hv Hid Hb Hh. unfold Hono.download. unfold_store. run_handler.
  fold (byName name). rewrite Hp. cbn.
  fold (byVersion (Package._id pkg) ver). rewrite Hv. cbn.
  rewrite Hid. cbn. rewrite Hb. run_handler. rewrite Hh. reflexivity.
Qed.

Lemma streamContents_appended (d d' : Db) (f : GridFile.t) :
  fs d' = (fs d ++ [f])%list ->
  streamContents d (GridFile._id f) = None ->
  streamContents d' (GridFile._id f) = Some (GridFile.content f).
Proof.
  intros Hfs Hnone. unfold streamContents in *. rewrite Hfs.
  destruct (find (fun g => ObjectId_eqb (GridFile._id g) (GridFile._id f)) (fs d))
    eqn:E; [discriminate Hnone|].
  rewrite (find_app_none _ _ _ E). cbn. rewrite ObjectId_eqb_refl. reflexivity.
Qed.

(** X11. What is published to the Hono server is what is downloaded: when
    a publish by a user succeeds (for a new name, or for a package the user
    owns and a new version string), with a well-formed file id that the
    bucket does not hold yet, and the name of the uploaded file is one that
    [c.header] takes into [Content-Disposition], then a download of that
    name and version answers 200 with exactly the uploaded bytes and the
    uploaded file name in [Content-Disposition]. *)
Theorem hono_published_bytes_are_downloaded
    e uid o name ver descr fname bytes d :
  newObjectId uid = Some o ->
  name <> EmptyString -> ver <> EmptyString -> descr <> EmptyString ->
  isObjectId (Hono.newFileId e) = true ->
  streamContents d (Hono.newFileId e) = None ->
  c_header "Content-Disposition" (contentDisposition fname) = None ->
  match find (byName name) (packages d) with
  | Some pkg =>
      Package.owner pkg = VObjectId o /\
      find (byVersion (Package._id pkg) ver) (versions d) = None
  | None => find (byVersion (Hono.newPackageId e) ver) (versions d) = None
  end ->
  let r := run (Hono.publish e (Some uid)
                  (filledForm name ver descr fname bytes)) [] d in
  status (fst r) = 200 /\
  run (Hono.download name ver) [] (snd r)
  = (mkResponse 200 (Buffer bytes)
       [("Content-Type", "application/octet-stream");
        ("Content-Disposition", contentDisposition fname)], snd r).
Proof.
  intros Ho N1 N2 N3 Hid Hfresh Hh Hcase. cbv zeta.
  destruct (find (byName name) (packages d)) as [pkg|] eqn:Hp.
  - destruct Hcase as [Hown Hv].
    rewrite (hono_publish_owner e uid o name ver descr fname bytes d pkg
               Ho N1 N2 N3 Hp Hown Hv).
    split; [reflexivity|]. cbn [snd].
    apply (hono_download_run _ name ver pkg
             (Version.mk (Hono.newVersionId e) (Package._id pkg) ver descr None
                (List.length bytes) (toHexString (Hono.newFileId e)) fname
                (VObjectId o) (Hono.now e) None)
             (Hono.newFileId e) bytes).
    + exact Hp.
    + cbn [versions]. rewrite (find_app_none _ _ _ Hv). cbn [find].
      unfold byVersion. cbn. rewrite ObjectId_eqb_refl, String.eqb_refl.
      reflexivity.
    + cbn. apply isObjectId_new, Hid.
    + apply (streamContents_appended d _
               (GridFile.mk (Hono.newFileId e) fname (name, ver) bytes));
        [reflexivity|exact Hfresh].
    + exact Hh.
  - rewrite (hono_publish_new_package e uid o name ver descr fname bytes d
               Ho N1 N2 N3 Hp Hcase).
    split; [reflexivity|]. cbn [snd].
    apply (hono_download_run _ name ver
             (Package.mk (Hono.newPackageId e) name descr (VObjectId o)
                (Hono.now e) (Hono.now e) None)
             (Version.mk (Hono.newVersionId e) (Hono.newPackageId e) ver descr
                None (List.length bytes) (toHexString (Hono.newFileId e)) fname
                (VObjectId o) (Hono.now e) None)
             (Hono.newFileId e) bytes).
    + cbn [packages]. rewrite (find_app_none _ _ _ Hp). cbn [find].
      unfold byName. cbn. rewrite String.eqb_refl. reflexivity.
    + cbn [versions Package._id]. rewrite (find_app_none _ _ _ Hcase).
      cbn [find]. unfold byVersion. cbn.
      rewrite ObjectId_eqb_refl, String.eqb_refl. reflexivity.
    + cbn. apply isObjectId_new, Hid.
    + apply (streamContents_appended d _
               (GridFile.mk (Hono.newFileId e) fname (name, ver) bytes));
        [reflexivity|exact Hfresh].
    + exact Hh.
Qed.

(** X12. In the Hono server whoever publishes a name first owns it: after
    the first publish of a package, a publish to that package or a
    [deletePackage] of it by a user with another id is answered 403 and
    changes nothing, while the publisher's own [deletePackage] succeeds. *)
Theorem hono_first_publisher_owns_package
    e e' uid uid' o b name ver descr fname bytes ver' descr' fname' bytes' d :
  newObjectId uid = Some o -> newObjectId uid' = Some b -> o <> b ->
  name <> EmptyString -> ver <> EmptyString -> descr <> EmptyString ->
  ver' <> EmptyString -> descr' <> EmptyString ->
  find (byName name) (packages d) = None ->
  find (byVersion (Hono.newPackageId e) ver) (versions d) = None ->
  let d' := snd (run (Hono.publish e (Some uid)
                        (filledForm name ver descr fname bytes)) [] d) in
  run (Hono.publish e' (Some uid')
         (filledForm name ver' descr' fname' bytes')) [] d'
  = (json (Error "无权限发布此包") 403, d') /\
  run (Hono.deletePackage (Some uid') name) [] d'
  = (json (Error "无权限删除此包") 403, d') /\
  fst (run (Hono.deletePackage (Some uid) name) [] d')
  = json (Message "包删除成功") 200.
Proof.
  intros Ho Hb Hne N1 N2 N3 N2' N3' Hp Hv. cbv zeta.
  rewrite (hono_publish_new_package e uid o name ver descr fname bytes d
             Ho N1 N2 N3 Hp Hv). cbn [snd].
  set (pkg := Package.mk (Hono.newPackageId e) name descr (VObjectId o)
                (Hono.now e) (Hono.now e) None).
  set (d' := mkDb _ _ _ _ _).
  assert (find (byName name) (packages d') = Some pkg) as Hp'.
  { subst d'. cbn [packages]. rewrite (find_app_none _ _ _ Hp). cbn [find].
    unfold byName. cbn. rewrite String.eqb_refl. reflexivity. }
  split; [|split].
  - apply (hono_publish_forbidden e' uid' b name ver' descr' fname' bytes' d'
             pkg o); auto.
  - apply (hono_deletePackage_forbidden d' uid' o b name pkg); auto.
  - rewrite (hono_deletePackage_owner d' uid o name pkg); auto.
Qed.
End HonoPublish.

Lemma hono_published_bytes_are_downloaded_witness :
  let r := run (Hono.publish
                  (Hono.mkPublishEnv 300 (oid "6") (oid "7") (oid "8"))
                  (Some Scenario.aliceId)
                  (filledForm "leftpad" "2.0.0" "next" "leftpad-2.tgz" [x2a]))
             [] Scenario.H.published in
  status (fst r) = 200 /\
  run (Hono.download (P := samplePlatform) "leftpad" "2.0.0") [] (snd r)
  = (mkResponse 200 (Buffer [x2a])
       [("Content-Type", "application/octet-stream");
        ("Content-Disposition", contentDisposition "leftpad-2.tgz")], snd r).
Proof.
  apply (hono_published_bytes_are_downloaded (P := samplePlatform)
           (Hono.mkPublishEnv 300 (oid "6") (oid "7") (oid "8"))
           Scenario.aliceId (oid "1") "leftpad" "2.0.0" "next" "leftpad-2.tgz"
           [x2a] Scenario.H.published);
    try discriminate; try reflexivity.
  split; reflexivity.
Defined.

Lemma hono_first_publisher_owns_package_witness :
  let d' := Scenario.H.published in
  run (Hono.publish (Hono.mkPublishEnv 300 (oid "6") (oid "7") (oid "8"))
         (Some Scenario.bobId)
         (filledForm "leftpad" "9.9.9" "mine now" "x.tgz" [])) [] d'
  = (json (Error "无权限发布此包") 403, d') /\
  run (Hono.deletePackage (Some Scenario.bobId) "leftpad") [] d'
  = (json (Error "无权限删除此包") 403, d') /\
  fst (run (Hono.deletePackage (Some Scenario.aliceId) "leftpad") [] d')
  = json (Message "包删除成功") 200.
Proof.
  apply (hono_first_publisher_owns_package
           (Hono.mkPublishEnv 200 (oid "3") (oid "4") (oid "5"))
           (Hono.mkPublishEnv 300 (oid "6") (oid "7") (oid "8"))
           Scenario.aliceId Scenario.bobId (oid "1") (oid "2")
           "leftpad" "1.0.0" "pads on the left" "leftpad.tgz" payload
           "9.9.9" "mine now" "x.tgz" [] Scenario.H.registered);
    try discriminate; reflexivity.
Defined.

(** * Owner test of the Koa deletePackage *)

Lemma credentialsOk_intro (d : Db) (k s : string) (o : ObjectId) (u : User.t) :
  k <> EmptyString -> newObjectId s = Some o ->
  find (byUserId o) (users d) = Some u -> User.apiKey u = k ->
  credentialsOk d (mkHeaders (Some k) (Some s)) = true.
Proof.
  intros Hk Hs Hu Hkey. unfold credentialsOk. cbn.
  apply String.eqb_neq in Hk. rewrite Hk, Hs, Hu. cbn.
  destruct s as [|c s]; [discriminate Hs|]. cbn.
  rewrite Hkey. apply String.eqb_refl.
Qed.

(** X13. The owner test of the Koa [deletePackage] compares the header
    text: [authenticate] accepts an [x-user-id] in any letter case, since
    it looks the user up by ObjectId, but the package was stored with the
    spelling of the header that published it, and [deletePackage] answers
    403 to the same user under another spelling of the id, while the
    original spelling is answered 200. *)
Theorem koa_owner_test_is_case_sensitive
    (d : Db) (k a a' name : string) (o : ObjectId) (u : User.t)
    (pkg : Package.t) :
  k <> EmptyString -> a <> a' ->
  newObjectId a = Some o -> newObjectId a' = Some o ->
  find (byUserId o) (users d) = Some u -> User.apiKey u = k ->
  find (byName name) (packages d) = Some pkg ->
  Package.owner pkg = VString a ->
  credentialsOk d (mkHeaders (Some k) (Some a')) = true /\
  run (Koa.route_deletePackage (mkHeaders (Some k) (Some a')) name) [] d
  = (json (Error "无权限删除此包") 403, d) /\
  fst (run (Koa.route_deletePackage (mkHeaders (Some k) (Some a)) name) [] d)
  = json (Message "包删除成功") 200.
Proof.
  intros Hk Hne Ha Ha' Hu Hkey Hp Hown.
  pose proof (credentialsOk_intro d k a o u Hk Ha Hu Hkey) as Hok.
  pose proof (credentialsOk_intro d k a' o u Hk Ha' Hu Hkey) as Hok'.
  split; [exact Hok'|]. unfold Koa.route_deletePackage. split.
  - destruct (koa_authenticate_passes d (mkHeaders (Some k) (Some a'))
                (fun userId => Koa.deletePackage (VString userId) name) Hok')
      as (userId & Hid & _ & ->).
    injection Hid as <-.
    apply (koa_deletePackage_forbidden d a a' name pkg Hp Hown Hne).
  - destruct (koa_authenticate_passes d (mkHeaders (Some k) (Some a))
                (fun userId => Koa.deletePackage (VString userId) name) Hok)
      as (userId & Hid & _ & ->).
    injection Hid as <-.
    rewrite (koa_deletePackage_owner d a name pkg Hp Hown). reflexivity.
Qed.

(** A user is registered under the id ...0a; the package is stored by
    the controller under the header ...0A, and the user then tries to
    delete with the header ...0a. *)
Lemma koa_owner_test_is_case_sensitive_witness :
  let upper := "00000000000000000000000A" in
  let lower := "00000000000000000000000a" in
  let d0 := snd (Scenario.K.exec
                   (Koa.Register (Koa.mkRegisterEnv 100 (oid "a") [] [xaa])
                      "alice" "pw123") emptyDb) in
  let d := snd (run (Scenario.K.publishCall upper "1.0.0" 200 "3" "4" "5")
                  [] d0) in
  map Package.owner (packages d) = [VString upper] /\
  run (Koa.route_deletePackage (mkHeaders (Some "aa") (Some lower)) "leftpad")
    [] d
  = (json (Error "无权限删除此包") 403, d) /\
  fst (run (Koa.route_deletePackage (mkHeaders (Some "aa") (Some upper))
              "leftpad") [] d)
  = json (Message "包删除成功") 200.
Proof.
  cbv zeta. split; [reflexivity|].
  refine (proj2 (koa_owner_test_is_case_sensitive _ "aa"
                   "00000000000000000000000A" "00000000000000000000000a"
                   "leftpad" (oid "a")
                   (User.mk (oid "a") "alice" "bcrypt:pw123" "aa"
                      (Some 100%Z) (Some 100%Z))
                   (Package.mk (oid "3") "leftpad" "pads on the left"
                      (VString "00000000000000000000000A") 200 200 (Some 0%Z))
                   _ _ _ _ _ _ _ _));
    try discriminate; reflexivity.
Defined.

(** * API keys *)

Lemma hex_byte_roundtrip (b : byte) :
  Byte.of_N (hexValue (hexDigit (N.div (Byte.to_N b) 16)) * 16
             + hexValue (hexDigit (N.modulo (Byte.to_N b) 16))) = Some b.
Proof. destruct b; reflexivity. Qed.

Lemma hexDigit_isHex (n : N) : isHexDigit (hexDigit n) = true.
Proof.
  destruct n as [|p]; [reflexivity|].
  do 4 (destruct p as [p|p|]; try reflexivity).
Qed.

Lemma hexDigit_lower (n : N) : toLowerChar (hexDigit n) = hexDigit n.
Proof.
  destruct n as [|p]; [reflexivity|].
  do 4 (destruct p as [p|p|]; try reflexivity).
Qed.

(** X14. An API key is the lowercase hexadecimal text of the random
    bytes: [generateApiKey] yields two hexadecimal digits per byte (64
    characters for the 32 bytes of [randomBytes(32)]), none of them an
    uppercase letter, and the bytes can be read back from the key, so that
    different random bytes give different keys. *)
Theorem generateApiKey_is_hex_of_entropy (entropy : list byte) :
  String.length (generateApiKey entropy) = 2 * List.length entropy /\
  allHex (generateApiKey entropy) = true /\
  toLowerCase (generateApiKey entropy) = generateApiKey entropy /\
  fromHex (generateApiKey entropy) = entropy /\
  forall entropy', generateApiKey entropy' = generateApiKey entropy ->
                   entropy' = entropy.
Proof.
  unfold generateApiKey.
  assert (forall l, fromHex (toHex l) = l) as Hround.
  { induction l as [|b r IH]; [reflexivity|]. cbn [toHex fromHex].
    rewrite hex_byte_roundtrip, IH. reflexivity. }
  split; [|split; [|split; [|split]]].
  - induction entropy as [|b r IH]; [reflexivity|]. cbn [toHex String.length].
    rewrite IH. cbn. lia.
  - induction entropy as [|b r IH]; [reflexivity|]. cbn [toHex allHex].
    rewrite !hexDigit_isHex, IH. reflexivity.
  - induction entropy as [|b r IH]; [reflexivity|]. cbn [toHex toLowerCase].
    rewrite !hexDigit_lower, IH. reflexivity.
  - apply Hround.
  - intros entropy' H. rewrite <- (Hround entropy'), H. apply Hround.
Qed.

(** * GridFS *)







(** * The MongoDB connection *)

Section Connection.
Import MongoDB.

(** A database is only ever held together with the client it came from,
    whatever the calls and their outcomes. *)
Lemma mongo_database_has_its_client (calls : list Call) (s : State) :
  (forall db, database s = Some db -> client s = Some (connection db)) ->
  forall db, database (performAll calls s) = Some db ->
             client (performAll calls s) = Some (connection db).
Proof.
  revert s. induction calls as [|c r IH]; intros s H; [exact H|].
  cbn [performAll fold_left]. apply IH.
  destruct s as [cl dbs out]. cbn in H.
  destruct c as [cfg drv|closing]; cbn.
  - unfold connectToMongoDB. cbn.
    destruct dbs as [db0|]; cbn; [exact H|].
    destruct (truthy (MONGO_CONNECTION_STRING cfg)); cbn; [|exact H].
    destruct (dial drv _) as [k|e]; cbn; [|exact H].
    destruct (refused drv (DB_NAME cfg)); cbn; [discriminate|].
    intros db E. injection E as <-. reflexivity.
  - unfold closeMongoDB. cbn.
    destruct cl as [k|]; cbn; [|exact H].
    destruct closing as [e|]; cbn; [exact H|discriminate].
Qed.

(** A name that [client.db] refuses: the client stays in its variable
    without a database, the next call dials again, and the first
    connection is open for good, out of the reach of [closeMongoDB]. *)
Lemma mongo_refused_name_leaks_connection :
  let cfg := mkConfig (Some "mongodb://localhost") (Some "npm.db") in
  let refuse := fun _ : option string => Some "database names cannot contain the character '.'" in
  let first := mkDriver (fun _ => inl 1) refuse 0 in
  let second := mkDriver (fun _ => inl 2) refuse 0 in
  let calls := [Connect cfg first; Connect cfg second; Close None] in
  fst (connectToMongoDB cfg first initial)
  = Rejected "database names cannot contain the character '.'" /\
  client (perform (Connect cfg first) initial) = Some 1 /\
  getDatabase (perform (Connect cfg first) initial) = None /\
  openConnections [Connect cfg first; Connect cfg second] initial [] = [1; 2] /\
  client (performAll calls initial) = None /\
  openConnections calls initial [] = [1].
Proof. cbv zeta. repeat split. Qed.




End Connection.


(** * Login and the stored credentials *)

Lemma map_updateFirst {A B} (f : A -> bool) (g : A -> A) (h : A -> B)
    (l : list A) :
  (forall x, h (g x) = h x) -> map h (updateFirst f g l) = map h l.
Proof.
  intros H. induction l as [|x r IH]; cbn; [reflexivity|].
  destruct (f x); cbn; [rewrite H|rewrite IH]; reflexivity.
Qed.

Section LoginEffect.
Context {P : Platform}.

(** X17. A login never touches a credential: whatever the request and
    whichever store calls fail, the Koa [login] leaves packages, Versions
    and blobs alone and keeps the id, name, password hash, key and creation
    time of every user, in the same order (only [lastLogin] can change);
    the Hono [login] leaves the whole database as it was. *)
Theorem login_keeps_credentials (at_ : Z) (username password : string)
    (usernameH passwordH : option string) (plan : list (option string))
    (d : Db) :
  let identity := fun u => (User._id u, User.username u, User.password u,
                            User.apiKey u, User.createdAt u) in
  let d' := snd (run (Koa.login at_ username password) plan d) in
  map identity (users d') = map identity (users d) /\
  packages d' = packages d /\ versions d' = versions d /\ fs d' = fs d /\
  snd (run (Hono.login usernameH passwordH) plan d) = d.
Proof.
  cbv zeta.
  assert (map (fun u => (User._id u, User.username u, User.password u,
                         User.apiKey u, User.createdAt u))
            (users (snd (run (Koa.login at_ username password) plan d)))
          = map (fun u => (User._id u, User.username u, User.password u,
                           User.apiKey u, User.createdAt u)) (users d) /\
          packages (snd (run (Koa.login at_ username password) plan d))
          = packages d /\
          versions (snd (run (Koa.login at_ username password) plan d))
          = versions d /\
          fs (snd (run (Koa.login at_ username password) plan d)) = fs d)
    as (Hu & Hp & Hv & Hb).
  { apply (keeps_run _
      (fun d' =>
         map (fun u => (User._id u, User.username u, User.password u,
                        User.apiKey u, User.createdAt u)) (users d')
         = map (fun u => (User._id u, User.username u, User.password u,
                          User.apiKey u, User.createdAt u)) (users d) /\
         packages d' = packages d /\ versions d' = versions d /\ fs d' = fs d));
      [|repeat split].
    unfold Koa.login. keeps_auto. intros d0 (Hu & Hp & Hv & Hb). cbn.
    rewrite map_updateFirst; [auto|]. intros x. reflexivity. }
  repeat (split; [assumption|]).
  apply (keeps_run _ (fun d' => d' = d)); [|reflexivity].
  unfold Hono.login. keeps_auto.
Qed.
End LoginEffect.

(** * Partial failures *)

Section PartialFailures.
Context {P : Platform}.

Lemma filter_all_false {A} (f : A -> bool) (l : list A) :
  (forall x, In x l -> f x = false) -> filter f l = [].
Proof.
  induction l as [|x r IH]; cbn; [reflexivity|]. intros H.
  rewrite (H x (or_introl eq_refl)). apply IH. intros y Hy. apply H. right; exact Hy.
Qed.


(** X19. The cascade of the Koa [removeAccount] is not atomic: when the
    deletion of the user goes through and the deletion of the packages is
    rejected by the store, the answer is 500 with the error of the store,
    the user is gone and all packages are still there. *)
Theorem koa_removeAccount_is_not_atomic
    (s : string) (uid : ObjectId) (e : string) (plan : list (option string))
    (d : Db) :
  newObjectId s = Some uid ->
  run (Koa.removeAccount (Some s)) (None :: Some e :: plan) d
  = (json (Error e) 500,
     mkDb (deleteFirst (byUserId uid) (users d)) (packages d) (versions d)
       (fs d) (chunks d)).
Proof.
  intros Hs. unfold Koa.removeAccount. destruct s as [|c s]; [discriminate Hs|].
  unfold_store. unfold ObjectId_new. rewrite Hs. reflexivity.
Qed.

(** X20. A first publish that fails after the package was inserted leaves
    a package without Versions, owned by the publisher: in the Hono
    server, when the upload to GridFS is rejected, the answer is 500, the
    new Package document stays, latestVersion answers "暂无版本" for it,
    and the same user can publish the same version again with success. *)
Theorem hono_failed_first_publish_leaves_empty_package
    e e' uid o name ver descr fname bytes (err : string) d :
  newObjectId uid = Some o ->
  name <> EmptyString -> ver <> EmptyString -> descr <> EmptyString ->
  find (byName name) (packages d) = None ->
  (forall v, In v (versions d) ->
             ObjectId_eqb (Version.package v) (Hono.newPackageId e) = false) ->
  let form := filledForm name ver descr fname bytes in
  let r := run (Hono.publish e (Some uid) form)
             [None; None; None; Some err] d in
  fst r = json (Error err) 500 /\
  snd r = mkDb (users d)
            (packages d ++
               [Package.mk (Hono.newPackageId e) name descr (VObjectId o)
                  (Hono.now e) (Hono.now e) None])
            (versions d) (fs d) (chunks d) /\
  fst (run (Hono.getLatestVersion name) [] (snd r))
  = json (Message "暂无版本") 200 /\
  fst (run (Hono.publish e' (Some uid) form) [] (snd r))
  = json (Published "包发布成功" (Hono.newVersionId e')) 200.
Proof.
  intros Ho N1 N2 N3 Hp Hnone. cbv zeta.
  set (pkg := Package.mk (Hono.newPackageId e) name descr (VObjectId o)
                (Hono.now e) (Hono.now e) None).
  assert (find (byVersion (Hono.newPackageId e) ver) (versions d) = None)
    as Hv.
  { apply find_all_false. intros v Hin. unfold byVersion.
    rewrite (Hnone v Hin). reflexivity. }
  assert (run (Hono.publish e (Some uid)
                 (filledForm name ver descr fname bytes))
            [None; None; None; Some err] d
          = (json (Error err) 500,
             mkDb (users d) (packages d ++ [pkg]) (versions d) (fs d)
               (chunks d))) as ->.
  { unfold Hono.publish, filledForm. destruct uid; [discriminate Ho|].
    unfold_store. unfold ObjectId_new. rewrite Ho.
    pose proof N1 as N1'. pose proof N2 as N2'. pose proof N3 as N3'.
    apply String.eqb_neq in N1', N2', N3'. run_handler.
    rewrite N1', N2', N3'. cbn.
    fold (byName name). rewrite Hp. cbn.
    fold (byVersion (Hono.newPackageId e) ver). rewrite Hv.
    rewrite saveFileToGridFS_rejected. reflexivity. }
  cbn [fst snd].
  assert (find (byName name) (packages d ++ [pkg]) = Some pkg) as Hp'.
  { rewrite (find_app_none _ _ _ Hp). cbn [find]. unfold byName. cbn.
    rewrite String.eqb_refl. reflexivity. }
  split; [reflexivity|]. split; [reflexivity|]. split.
  - rewrite hono_getLatestVersion_run, koa_getLatestVersion_run.
    cbn [fst packages]. rewrite Hp'. unfold versionsOf. subst pkg.
    cbn [versions Package._id].
    rewrite (filter_all_false _ _ Hnone). reflexivity.
  - rewrite (hono_publish_owner e' uid o name ver descr fname bytes
               (mkDb (users d) (packages d ++ [pkg]) (versions d) (fs d)
                  (chunks d)) pkg
               Ho N1 N2 N3 Hp' eq_refl Hv). reflexivity.
Qed.
End PartialFailures.


Lemma koa_removeAccount_is_not_atomic_witness :
  let r := run (Koa.removeAccount (Some Scenario.aliceId))
             [None; Some "connection lost"] Scenario.K.published in
  fst r = json (Error "connection lost") 500 /\
  map User.username (users (snd r)) = ["bob"] /\
  packages (snd r) = packages Scenario.K.published.
Proof.
  cbv zeta.
  rewrite (koa_removeAccount_is_not_atomic Scenario.aliceId (oid "1")
             "connection lost" [] Scenario.K.published eq_refl).
  repeat split.
Defined.

Lemma hono_failed_first_publish_leaves_empty_package_witness :
  let form := filledForm "rightpad" "0.1.0" "pads on the right" "r.tgz" [x2a] in
  let r := run (Hono.publish
                  (Hono.mkPublishEnv 300 (oid "6") (oid "7") (oid "8"))
                  (Some Scenario.bobId) form)
             [None; None; None; Some "disk full"] Scenario.H.published in
  fst r = json (Error "disk full") 500 /\
  map Package.name (packages (snd r)) = ["leftpad"; "rightpad"] /\
  fst (run (Hono.getLatestVersion "rightpad") [] (snd r))
  = json (Message "暂无版本") 200 /\
  fst (run (Hono.publish
              (Hono.mkPublishEnv 400 (oid "9") (oid "a") (oid "b"))
              (Some Scenario.bobId) form) [] (snd r))
  = json (Published "包发布成功" (oid "b")) 200.
Proof.
  cbv zeta.
  destruct (hono_failed_first_publish_leaves_empty_package
              (Hono.mkPublishEnv 300 (oid "6") (oid "7") (oid "8"))
              (Hono.mkPublishEnv 400 (oid "9") (oid "a") (oid "b"))
              Scenario.bobId (oid "2") "rightpad" "0.1.0" "pads on the right"
              "r.tgz" [x2a] "disk full" Scenario.H.published)
    as (Hr & Hd & Hl & Hretry); try discriminate; try reflexivity.
  - intros v [<-|[]]. reflexivity.
  - split; [exact Hr|]. split; [rewrite Hd; reflexivity|].
    split; [exact Hl|exact Hretry].
Defined.
